(** * smart_open.asb: file-like objects over Azure Storage Blob

    A shallow embedding of [smart_open/asb.py] (the [_RawReader], [Reader]
    and [Writer] classes and the [open] factory) together with the
    [FakeBlobClient] of [smart_open/tests/test_asb.py], which plays the
    remote blob.  Python objects become records, mutation becomes state
    passing in a small state-and-exception monad whose state survives a
    raised exception, as the fields of a Python object do. *)

From Stdlib Require Import ZArith List Bool Lia.
From Stdlib Require Import Strings.String Strings.Byte.
Import ListNotations.
Open Scope Z_scope.

(** ** Bytes *)

Definition bytes : Type := list byte.

(** [len(b)] *)
Definition len (b : bytes) : Z := Z.of_nat (List.length b).

(** [b[:n]] and [b[n:]] for a non-negative [n]. *)
Definition upto (n : Z) (b : bytes) : bytes := firstn (Z.to_nat n) b.
Definition from (n : Z) (b : bytes) : bytes := skipn (Z.to_nat n) b.

(** A bytes literal, [b"..."] in the source. *)
Definition b_ (s : string) : bytes := list_byte_of_string s.

(** [bytes.startswith] *)
Fixpoint startswith (sub s : bytes) : bool :=
  match sub, s with
  | [], _ => true
  | _ :: _, [] => false
  | x :: sub', y :: s' => Byte.eqb x y && startswith sub' s'
  end.

(** [s.index(sub)]: the offset of the first occurrence of [sub] in [s];
    [None] stands for both [sub in s] being false and [index] raising. *)
Fixpoint index (sub s : bytes) : option Z :=
  if startswith sub s then Some 0
  else match s with
       | [] => None
       | _ :: s' => option_map Z.succ (index sub s')
       end.

(** ** Exceptions and the monad *)

Inductive exn : Type :=
| NotImplementedError
| ValueError
| TypeError
| KeyError
| AttributeError
| UnsupportedOperation
| ResourceNotFoundError
| HttpResponseError.

(** What a call does: return, raise, or still run when the fuel given to
    a [while] loop is spent. *)
Inductive outcome (A : Type) : Type :=
| Ok (a : A)
| Raise (e : exn)
| OutOfFuel.
Arguments Ok {A} a.
Arguments Raise {A} e.
Arguments OutOfFuel {A}.

Definition M (S A : Type) : Type := S -> outcome A * S.

Definition ret {S A} (a : A) : M S A := fun s => (Ok a, s).
Definition raise {S A} (e : exn) : M S A := fun s => (Raise e, s).
Definition out_of_fuel {S A} : M S A := fun s => (OutOfFuel, s).
Definition bind {S A B} (m : M S A) (k : A -> M S B) : M S B :=
  fun s => match m s with
           | (Ok a, s') => k a s'
           | (Raise e, s') => (Raise e, s')
           | (OutOfFuel, s') => (OutOfFuel, s')
           end.
Definition get {S} : M S S := fun s => (Ok s, s).
Definition put {S} (s : S) : M S unit := fun _ => (Ok tt, s).
Definition modify {S} (f : S -> S) : M S unit := fun s => (Ok tt, f s).

(** [try: m  except: h] with a bare [except], which catches every exception. *)
Definition try_except {S A} (m : M S A) (h : M S A) : M S A :=
  fun s => match m s with
           | (Raise _, s') => h s'
           | r => r
           end.

(** The value of an expression that may raise instead. *)
Definition lift {S A} (r : exn + A) : M S A :=
  match r with
  | inr a => ret a
  | inl e => raise e
  end.

Declare Scope monad_scope.
Delimit Scope monad_scope with monad.
Notation "x <- m ;; k" := (bind m (fun x => k))
  (at level 61, m at next level, right associativity) : monad_scope.
Notation "m ;; k" := (bind m (fun _ => k))
  (at level 61, right associativity) : monad_scope.
Open Scope monad_scope.

(** Run [m] on the first or on the second component of a paired state. *)
Definition on_fst {X Y A} (m : M X A) : M (X * Y) A :=
  fun '(x, y) => let '(o, x') := m x in (o, (x', y)).
Definition on_snd {X Y A} (m : M Y A) : M (X * Y) A :=
  fun '(x, y) => let '(o, y') := m y in (o, (x, y')).

(** ** The remote blob: [FakeBlobClient] of the tests *)

(** The calls a blob client receives, kept in the order they are issued. *)
Inductive call : Type :=
| GetBlobProperties
| DownloadBlob (offset : Z) (length : option Z)
| UploadBlob (data : bytes)
| UploadUnreadable.

(** [contents] is [FakeBlobClient.__contents]; [size_property] is the
    ['size'] entry of what [get_blob_properties()] returns, [None] when the
    lookup raises (the fake's metadata dict has no such key until one is
    set); [upload_fault] is the error, if any, with which the transport
    rejects an upload. *)
Record BlobClient : Type := {
  contents : bytes;
  size_property : option Z;
  upload_fault : option exn;
  calls : list call
}.

Definition record_call (c : call) : M BlobClient unit :=
  modify (fun b => {| contents := contents b; size_property := size_property b;
                      upload_fault := upload_fault b; calls := calls b ++ [c] |}).

(** [blob.get_blob_properties()['size']] *)
Definition get_blob_properties_size : M BlobClient Z :=
  record_call GetBlobProperties ;;
  b <- get ;;
  match size_property b with
  | Some n => ret n
  | None => raise KeyError
  end.

(** [FakeBlobClient.download_blob(offset, length)] followed by the
    [stream.read()] of [_download_blob_chunk]; the readers always give an
    offset.  [BytesIO.seek] refuses a negative offset, and [BytesIO.read]
    reads to the end for a length that is [None] or negative. *)
Definition download_blob (offset : Z) (length : option Z) : M BlobClient bytes :=
  record_call (DownloadBlob offset length) ;;
  if offset <? 0 then raise ValueError
  else
    b <- get ;;
    let rest := from offset (contents b) in
    ret (match length with
         | None => rest
         | Some n => if n <? 0 then rest else upto n rest
         end).

(** [FakeBlobClient.upload_blob(data)]: the contents are replaced (the
    container's register of blobs is left out); a faulty transport raises
    and replaces nothing. *)
Definition upload_blob (data : bytes) : M BlobClient unit :=
  record_call (UploadBlob data) ;;
  b <- get ;;
  match upload_fault b with
  | Some e => raise e
  | None => put {| contents := data; size_property := size_property b;
                   upload_fault := upload_fault b; calls := calls b |}
  end.

(** [FakeBlobClient.upload_blob(b)] for any binary [b]: the fake reads the
    bytes of [b] first, with [io.BytesIO(data[:length])], and that raises
    when they cannot be read; nothing is replaced then. *)
Definition upload_object (data : exn + bytes) : M BlobClient unit :=
  match data with
  | inr d => upload_blob d
  | inl e => record_call UploadUnreadable ;; raise e
  end.

(** The call the blob client logs for it. *)
Definition upload_call (data : exn + bytes) : call :=
  match data with
  | inr d => UploadBlob d
  | inl _ => UploadUnreadable
  end.

(** A blob handle, [container_client.get_blob_client(blob)]. *)
Inductive handle : Type := BlobHandle.

(** ** Constants of [smart_open.constants] *)

(** Modelled from the spec: [smart_open/constants.py] is not among the
    sources.  The open modes are "rb" and "wb", the line terminator is the
    newline byte, and the three whence values are those of Python's [io]
    module; [WHENCE_CHOICES] is the tuple of the three. *)
Definition READ_BINARY : string := "rb".
Definition WRITE_BINARY : string := "wb".
Definition BINARY_NEWLINE : bytes := [x0a].
Definition WHENCE_START : Z := 0.
Definition WHENCE_CURRENT : Z := 1.
Definition WHENCE_END : Z := 2.
Definition WHENCE_CHOICES : list Z := [WHENCE_START; WHENCE_CURRENT; WHENCE_END].

Definition DEFAULT_BUFFER_SIZE : Z := 4 * 1024 ^ 2.

(** ** [smart_open.bytebuffer.ByteBuffer] *)

Module ByteBuffer.

(** Modelled from the spec: [smart_open/bytebuffer.py] is not among the
    sources.  The buffer is a byte queue with a chunk size: [peek] shows
    the unread bytes, [read] removes at most [size] of them from the
    front, [fill] asks the source for one chunk and appends what it gets,
    returning how many bytes that was. *)
Record t : Type := { _chunk_size : Z; _bytes : bytes }.

Definition __init__ (chunk_size : Z) : t :=
  {| _chunk_size := chunk_size; _bytes := [] |}.

Definition __len__ (b : t) : Z := len (_bytes b).

Definition peek (b : t) : bytes := _bytes b.

Definition read (size : Z) (b : t) : bytes * t :=
  if size <? 0 then (_bytes b, {| _chunk_size := _chunk_size b; _bytes := [] |})
  else (upto size (_bytes b),
        {| _chunk_size := _chunk_size b; _bytes := from size (_bytes b) |}).

Definition empty (b : t) : t := {| _chunk_size := _chunk_size b; _bytes := [] |}.

Definition fill {S} (source_read : Z -> M S bytes) (b : t) : M S (Z * t) :=
  new_bytes <- source_read (_chunk_size b) ;;
  ret (len new_bytes,
       {| _chunk_size := _chunk_size b; _bytes := _bytes b ++ new_bytes |}).

End ByteBuffer.

(** ** [_RawReader] *)

Module _RawReader.

Record t : Type := { _size : Z; _position : Z }.

(** The raw reader and the blob it downloads from. *)
Definition state : Type := (t * BlobClient)%type.

Definition __init__ (size : Z) : t := {| _size := size; _position := 0 |}.

Definition set_position (p : Z) (r : t) : t := {| _size := _size r; _position := p |}.

Definition seek (position : Z) : M state Z :=
  on_fst (modify (set_position position)) ;;
  r <- on_fst get ;;
  ret (_position r).

Definition _download_blob_chunk (size : Z) : M state bytes :=
  r <- on_fst get ;;
  let position := _position r in
  if position =? _size r then ret []
  else if size =? -1 then on_snd (download_blob position None)
  else on_snd (download_blob position (Some size)).

Definition read (size : Z) : M state bytes :=
  r <- on_fst get ;;
  if _position r >=? _size r then ret []
  else
    binary <- _download_blob_chunk size ;;
    on_fst (modify (fun r => set_position (_position r + len binary) r)) ;;
    ret binary.

End _RawReader.

(** ** [Reader] *)

(** [format % args] for a tuple [args]: the elements of the tuple are the
    arguments of the format, and Python raises [TypeError] unless the
    format has exactly one conversion for each of them.  [conversions] is
    the number of conversions in the format. *)
Definition percent_tuple {S} (conversions : nat) (args : list Z) : M S unit :=
  if Nat.eqb (List.length args) conversions then ret tt else raise TypeError.

Module Reader.

(** [_blob] and [_raw_reader] are [None] once the reader is closed.  The
    blob behind the handle is the second component of [state]: the reader
    and its raw reader hold the same handle, so there is one blob. *)
Record t : Type := {
  _blob : option handle;
  _size : Z;
  _raw_reader : option _RawReader.t;
  _current_pos : Z;
  _current_part_size : Z;
  _current_part : ByteBuffer.t;
  _eof : bool;
  _line_terminator : bytes
}.

Definition state : Type := (t * BlobClient)%type.

Definition set_blob (v : option handle) (r : t) : t :=
  {| _blob := v; _size := _size r; _raw_reader := _raw_reader r;
     _current_pos := _current_pos r; _current_part_size := _current_part_size r;
     _current_part := _current_part r; _eof := _eof r;
     _line_terminator := _line_terminator r |}.

Definition set_raw_reader (v : option _RawReader.t) (r : t) : t :=
  {| _blob := _blob r; _size := _size r; _raw_reader := v;
     _current_pos := _current_pos r; _current_part_size := _current_part_size r;
     _current_part := _current_part r; _eof := _eof r;
     _line_terminator := _line_terminator r |}.

Definition set_current_pos (v : Z) (r : t) : t :=
  {| _blob := _blob r; _size := _size r; _raw_reader := _raw_reader r;
     _current_pos := v; _current_part_size := _current_part_size r;
     _current_part := _current_part r; _eof := _eof r;
     _line_terminator := _line_terminator r |}.

Definition set_current_part (v : ByteBuffer.t) (r : t) : t :=
  {| _blob := _blob r; _size := _size r; _raw_reader := _raw_reader r;
     _current_pos := _current_pos r; _current_part_size := _current_part_size r;
     _current_part := v; _eof := _eof r;
     _line_terminator := _line_terminator r |}.

Definition set_eof (v : bool) (r : t) : t :=
  {| _blob := _blob r; _size := _size r; _raw_reader := _raw_reader r;
     _current_pos := _current_pos r; _current_part_size := _current_part_size r;
     _current_part := _current_part r; _eof := v;
     _line_terminator := _line_terminator r |}.

(** [self], read and updated. *)
Definition self : M state t := on_fst get.
Definition update (f : t -> t) : M state unit := on_fst (modify f).

(** A method call on [self._raw_reader], [seek] or [read]; on [None]
    Python raises [AttributeError]. *)
Definition with_raw_reader {A} (m : M _RawReader.state A) : M state A :=
  fun '(r, blob) =>
    match _raw_reader r with
    | None => (Raise AttributeError, (r, blob))
    | Some raw =>
        let '(o, (raw', blob')) := m (raw, blob) in
        (o, (set_raw_reader (Some raw') r, blob'))
    end.

(** The constructor, from the point where the handle has been looked up:
    [blob] is the value of [container_client.get_blob_client(blob)]. *)
Definition __init__ (blob : option handle) (buffer_size : Z)
    (line_terminator : bytes) : M BlobClient t :=
  match blob with
  | None => raise ResourceNotFoundError
  | Some h =>
      size <- try_except get_blob_properties_size (ret 0) ;;
      ret {| _blob := Some h; _size := size;
             _raw_reader := Some (_RawReader.__init__ size);
             _current_pos := 0; _current_part_size := buffer_size;
             _current_part := ByteBuffer.__init__ buffer_size;
             _eof := false; _line_terminator := line_terminator |}
  end.

Definition close : M state unit :=
  update (set_blob None) ;;
  update (set_raw_reader None).

Definition readable : M state bool := ret true.

Definition seekable : M state bool := ret true.

Definition detach : M state unit := raise UnsupportedOperation.

(** The message of the [ValueError] is formatted before the exception is
    made: ['... %r' % WHENCE_CHOICES], one conversion for a tuple of three. *)
Definition seek (offset whence : Z) : M state Z :=
  if negb (existsb (Z.eqb whence) WHENCE_CHOICES) then
    percent_tuple 1 WHENCE_CHOICES ;;
    raise ValueError
  else
    r <- self ;;
    let new_position :=
      if whence =? WHENCE_START then offset
      else if whence =? WHENCE_CURRENT then _current_pos r + offset
      else _size r + offset in
    update (set_current_pos new_position) ;;
    with_raw_reader (_RawReader.seek new_position) ;;
    update (fun r => set_current_part (ByteBuffer.empty (_current_part r)) r) ;;
    update (fun r => set_eof (_current_pos r =? _size r) r) ;;
    r <- self ;;
    ret (_current_pos r).

Definition tell : M state Z :=
  r <- self ;;
  ret (_current_pos r).

Definition truncate : M state unit := raise UnsupportedOperation.

Definition _read_from_buffer (size : Z) : M state bytes :=
  r <- self ;;
  let size := if size >=? 0 then size else ByteBuffer.__len__ (_current_part r) in
  let '(part, rest) := ByteBuffer.read size (_current_part r) in
  update (set_current_part rest) ;;
  update (fun r => set_current_pos (_current_pos r + len part) r) ;;
  ret part.

(** [bytes_read = self._current_part.fill(self._raw_reader)].  [fill]
    calls [read] on a source that has such a method and iterates over any
    other: on a closed reader the source is [None], which has no [read] and
    is not iterable, and Python raises [TypeError]. *)
Definition fill_current_part : M state Z :=
  r <- self ;;
  match _raw_reader r with
  | None => raise TypeError
  | Some _ =>
      p <- ByteBuffer.fill (fun n => with_raw_reader (_RawReader.read n))
             (_current_part r) ;;
      update (set_current_part (snd p)) ;;
      ret (fst p)
  end.

(** The [while] loop of [_fill_buffer]. *)
Fixpoint _fill_buffer_loop (fuel : nat) (size : Z) : M state unit :=
  r <- self ;;
  if (ByteBuffer.__len__ (_current_part r) <? size) && negb (_eof r) then
    match fuel with
    | O => out_of_fuel
    | S fuel' =>
        bytes_read <- fill_current_part ;;
        (if bytes_read =? 0 then update (set_eof true) else ret tt) ;;
        _fill_buffer_loop fuel' size
    end
  else ret tt.

(** Every turn of the loop that does not end it adds a byte to the
    buffer, so [size - len(self._current_part)] turns are enough. *)
Definition _fill_buffer (size : Z) : M state unit :=
  r <- self ;;
  let size := if size >=? 0 then size
              else ByteBuffer._chunk_size (_current_part r) in
  _fill_buffer_loop (Z.to_nat (size - ByteBuffer.__len__ (_current_part r))) size.

Definition read (size : Z) : M state bytes :=
  if size =? 0 then ret []
  else if size <? 0 then
    r <- self ;;
    update (set_current_pos (_size r)) ;;
    buffered <- _read_from_buffer (-1) ;;
    remote <- with_raw_reader (_RawReader.read (-1)) ;;
    ret (buffered ++ remote)
  else
    r <- self ;;
    if ByteBuffer.__len__ (_current_part r) >=? size then _read_from_buffer size
    else if _eof r then _read_from_buffer (-1)
    else
      _fill_buffer size ;;
      _read_from_buffer size.

Definition read1 (size : Z) : M state bytes := read size.

(** [b] is the caller's bytearray; its new value is returned with the count. *)
Definition readinto (b : bytes) : M state (Z * bytes) :=
  data <- read (len b) ;;
  match data with
  | [] => ret (0, b)
  | _ => ret (len data, data ++ from (len data) b)
  end.

(** The [while] loop of [readline]; [the_line] is the [BytesIO] being
    written. *)
Fixpoint readline_loop (fuel : nat) (the_line : bytes) : M state bytes :=
  r <- self ;;
  if negb (_eof r && (ByteBuffer.__len__ (_current_part r) =? 0)) then
    match fuel with
    | O => out_of_fuel
    | S fuel' =>
        let remaining_buffer := ByteBuffer.peek (_current_part r) in
        match index (_line_terminator r) remaining_buffer with
        | Some next_newline =>
            part <- _read_from_buffer (next_newline + 1) ;;
            ret (the_line ++ part)
        | None =>
            part <- _read_from_buffer (-1) ;;
            _fill_buffer (-1) ;;
            readline_loop fuel' (the_line ++ part)
        end
    end
  else ret the_line.

Definition readline (fuel : nat) (limit : Z) : M state bytes :=
  if negb (limit =? -1) then raise NotImplementedError
  else readline_loop fuel [].

End Reader.

(** ** [Writer] *)

(** The argument of [write]: any Python value.  Of a [memoryview] two
    things matter, and neither follows from the other: [n] is what [len(b)]
    gives, the number of items along the first dimension and not the number
    of bytes (on a released view [len] raises instead), and [data] is what
    the blob client reads from the view: its bytes, or the exception with
    which reading them fails (a view that is not contiguous). *)
Inductive pyobj : Type :=
| PyBytes (b : bytes)
| PyByteArray (b : bytes)
| PyMemoryView (n : exn + Z) (data : exn + bytes)
| PyStr (s : string)
| PyInt (z : Z)
| PyNone.

(** What [write] uses of a binary value: [len(b)] and the bytes of [b]. *)
Record binary : Type := { length_of : exn + Z; payload : exn + bytes }.

(** [isinstance(b, _BINARY_TYPES)], with what [write] uses of [b]. *)
Definition binary_view (o : pyobj) : option binary :=
  match o with
  | PyBytes b | PyByteArray b =>
      Some {| length_of := inr (len b); payload := inr b |}
  | PyMemoryView n data => Some {| length_of := n; payload := data |}
  | _ => None
  end.

(** A service client, [azure.storage.blob.BlobServiceClient]. *)
Inductive service : Type := BlobServiceClient.

Module Writer.

Record t : Type := {
  _client : option service;
  _blob : option handle;
  _total_size : Z
}.

Definition state : Type := (t * BlobClient)%type.

Definition self : M state t := on_fst get.
Definition update (f : t -> t) : M state unit := on_fst (modify f).

Definition set_client (v : option service) (w : t) : t :=
  {| _client := v; _blob := _blob w; _total_size := _total_size w |}.

Definition set_total_size (v : Z) (w : t) : t :=
  {| _client := _client w; _blob := _blob w; _total_size := v |}.

(** The constructor, from the point where the client is known (the given
    one, or a default one) and the handle has been looked up: [blob] is the
    value of [self._container_client.get_blob_client(blob)]. *)
Definition __init__ (client : service) (blob : option handle) : t :=
  {| _client := Some client; _blob := blob; _total_size := 0 |}.

Definition flush : M state unit := ret tt.

Definition closed : M state bool :=
  w <- self ;;
  ret (match _client w with None => true | Some _ => false end).

Definition close : M state unit :=
  c <- closed ;;
  if negb c then update (set_client None) else ret tt.

Definition writable : M state bool := ret true.

Definition tell : M state Z :=
  w <- self ;;
  ret (_total_size w).

Definition detach : M state unit := raise UnsupportedOperation.

Definition write (b : pyobj) : M state Z :=
  match binary_view b with
  | None => raise TypeError
  | Some v =>
      n <- lift (length_of v) ;;
      update (fun w => set_total_size (_total_size w + n) w) ;;
      w <- self ;;
      match _blob w with
      | None => raise AttributeError
      | Some _ => on_snd (upload_object (payload v))
      end ;;
      lift (length_of v)
  end.

End Writer.

(** ** [open] *)

Inductive stream : Type :=
| AReader (r : Reader.t)
| AWriter (w : Writer.t).

(** [open(container_id, blob_id, mode, buffer_size, client)], where
    [client] is the service client in use and [blob] the handle it gives
    for [(container_id, blob_id)]. *)
Definition open (mode : string) (buffer_size : Z) (client : service)
    (blob : option handle) : M BlobClient stream :=
  if String.eqb mode READ_BINARY then
    r <- Reader.__init__ blob buffer_size BINARY_NEWLINE ;;
    ret (AReader r)
  else if String.eqb mode WRITE_BINARY then
    ret (AWriter (Writer.__init__ client blob))
  else raise NotImplementedError.

(** ** Vocabulary of the statements *)

(** The upload of [v] to [blob] raises [e]: the bytes of [v] cannot be
    read, or they can and the transport rejects them. *)
Definition upload_raises (v : binary) (blob : BlobClient) (e : exn) : Prop :=
  payload v = inl e \/
  ((exists data, payload v = inr data) /\ upload_fault blob = Some e).

(** A blob as Azure serves it: the size property is the length of the
    contents and the transport is healthy. *)
Definition blob_of (C : bytes) : BlobClient :=
  {| contents := C; size_property := Some (len C); upload_fault := None;
     calls := [] |}.

(** [st] is an open reader over a blob that holds [C] and had that length
    when the reader was built. *)
Definition opened_on (C : bytes) (st : Reader.state) : Prop :=
  contents (snd st) = C /\
  Reader._size (fst st) = len C /\
  exists raw, Reader._raw_reader (fst st) = Some raw /\
              _RawReader._size raw = len C.

(** The reader has delivered nothing and fetched nothing: it is as the
    constructor or [seek(0)] leaves it. *)
Definition at_start (st : Reader.state) : Prop :=
  Reader._current_pos (fst st) = 0 /\
  ByteBuffer._bytes (Reader._current_part (fst st)) = [] /\
  exists raw, Reader._raw_reader (fst st) = Some raw /\
              _RawReader._position raw = 0.

(** The reader [open] builds in mode "rb" on [blob_of C], with the blob
    after the constructor's one call. *)
Definition fresh (C : bytes) (buffer_size : Z) : Reader.state :=
  ({| Reader._blob := Some BlobHandle;
      Reader._size := len C;
      Reader._raw_reader := Some (_RawReader.__init__ (len C));
      Reader._current_pos := 0;
      Reader._current_part_size := buffer_size;
      Reader._current_part := ByteBuffer.__init__ buffer_size;
      Reader._eof := false;
      Reader._line_terminator := BINARY_NEWLINE |},
   {| contents := C; size_property := Some (len C); upload_fault := None;
      calls := [GetBlobProperties] |}).

(** [b"ab\ncd\nef"] *)
Definition three_lines : bytes :=
  b_ "ab" ++ [x0a] ++ b_ "cd" ++ [x0a] ++ b_ "ef".

(** The chunk size of the reader's buffer. *)
Definition chunk_size_of (st : Reader.state) : Z :=
  ByteBuffer._chunk_size (Reader._current_part (fst st)).

(** What one download at [p] of [n] bytes yields from contents [C]. *)
Definition chunk_at (p n : Z) (C : bytes) : bytes :=
  if n <? 0 then from p C else upto n (from p C).

(** The [length] argument [_download_blob_chunk] passes for a read of [n]. *)
Definition length_arg (n : Z) : option Z := if n =? -1 then None else Some n.

(** An open reader written out: [r] and [blob] give the fields no method
    changes, the other arguments are the raw position [p], the buffered
    bytes [B], the end-of-stream flag, the cursor and the call log. *)
Definition running (r : Reader.t) (N : Z) (blob : BlobClient)
    (p : Z) (B : bytes) (e : bool) (pos : Z) (log : list call) : Reader.state :=
  ({| Reader._blob := Reader._blob r;
      Reader._size := Reader._size r;
      Reader._raw_reader :=
        Some {| _RawReader._size := N; _RawReader._position := p |};
      Reader._current_pos := pos;
      Reader._current_part_size := Reader._current_part_size r;
      Reader._current_part :=
        {| ByteBuffer._chunk_size := ByteBuffer._chunk_size (Reader._current_part r);
           ByteBuffer._bytes := B |};
      Reader._eof := e;
      Reader._line_terminator := Reader._line_terminator r |},
   {| contents := contents blob; size_property := size_property blob;
      upload_fault := upload_fault blob; calls := log |}).

(** The public operations of a reader, and the state each leaves,
    whether it returns or raises. *)
Inductive op : Type :=
| Close
| Readable
| Seekable
| Detach
| Seek (offset whence : Z)
| Tell
| Truncate
| Read (size : Z)
| Read1 (size : Z)
| Readinto (b : bytes)
| Readline (fuel : nat) (limit : Z).

Definition perform (o : op) (st : Reader.state) : Reader.state :=
  match o with
  | Close => snd (Reader.close st)
  | Readable => snd (Reader.readable st)
  | Seekable => snd (Reader.seekable st)
  | Detach => snd (Reader.detach st)
  | Seek offset whence => snd (Reader.seek offset whence st)
  | Tell => snd (Reader.tell st)
  | Truncate => snd (Reader.truncate st)
  | Read size => snd (Reader.read size st)
  | Read1 size => snd (Reader.read1 size st)
  | Readinto b => snd (Reader.readinto b st)
  | Readline fuel limit => snd (Reader.readline fuel limit st)
  end.

Definition perform_all (ops : list op) (st : Reader.state) : Reader.state :=
  fold_left (fun s o => perform o s) ops st.

(** [tell()], as a value. *)
Definition cursor (st : Reader.state) : Z := Reader._current_pos (fst st).

(** The absolute position [seek(offset, whence)] computes. *)
Definition seek_target (offset whence : Z) (st : Reader.state) : Z :=
  if whence =? WHENCE_START then offset
  else if whence =? WHENCE_CURRENT then cursor st + offset
  else Reader._size (fst st) + offset.

(** Every accepted seek of [ops], run from [st], aims at a position that
    is not negative. *)
Fixpoint seeks_forward (ops : list op) (st : Reader.state) : Prop :=
  match ops with
  | [] => True
  | o :: rest =>
      match o with
      | Seek offset whence =>
          In whence WHENCE_CHOICES -> 0 <= seek_target offset whence st
      | _ => True
      end /\ seeks_forward rest (perform o st)
  end.

(** The recorded size is [N], and neither it nor the cursor is negative. *)
Definition cursor_ok (N : Z) (st : Reader.state) : Prop :=
  Reader._size (fst st) = N /\ 0 <= N /\ 0 <= cursor st.

(** [m] keeps [cursor_ok], however it ends. *)
Definition keeps {A} (m : M Reader.state A) : Prop :=
  forall N st, cursor_ok N st -> cursor_ok N (snd (m st)).

(** ** Bytes and slices *)

Lemma len_nonneg (b : bytes) : 0 <= len b.
Proof. unfold len. lia. Qed.

Lemma len_app (a b : bytes) : len (a ++ b) = len a + len b.
Proof. unfold len. rewrite length_app. lia. Qed.

Lemma len_nil_inv (b : bytes) : len b = 0 -> b = [].
Proof. destruct b; [reflexivity | unfold len; simpl; lia]. Qed.

Lemma from_all (n : Z) (b : bytes) : len b <= n -> from n b = [].
Proof. unfold from, len. intros H. apply skipn_all2. lia. Qed.

Lemma upto_all (n : Z) (b : bytes) : len b <= n -> upto n b = b.
Proof. unfold upto, len. intros H. apply firstn_all2. lia. Qed.

Lemma upto_from (n : Z) (b : bytes) : upto n b ++ from n b = b.
Proof. apply firstn_skipn. Qed.

Lemma len_from (n : Z) (b : bytes) :
  0 <= n <= len b -> len (from n b) = len b - n.
Proof. unfold from, len. intros H. rewrite length_skipn. lia. Qed.

Lemma len_upto_le (n : Z) (b : bytes) : len (upto n b) <= len b.
Proof. unfold upto, len. rewrite length_firstn. lia. Qed.

Lemma from_from (p : Z) (d C : bytes) :
  0 <= p -> from (p + len d) C = skipn (List.length d) (from p C).
Proof.
  intros Hp. unfold from, len. rewrite skipn_skipn. f_equal. lia.
Qed.

Lemma firstn_then_rest (A : Type) (m : nat) (l : list A) :
  firstn m l ++ skipn (List.length (firstn m l)) l = l.
Proof.
  destruct (Nat.le_gt_cases m (List.length l)) as [H | H].
  - rewrite length_firstn, Nat.min_l by exact H. apply firstn_skipn.
  - rewrite firstn_all2 by lia. rewrite skipn_all. apply app_nil_r.
Qed.

(** A download and what is left after it make up what was left before. *)
Lemma chunk_then_rest (p n : Z) (C : bytes) :
  0 <= p -> chunk_at p n C ++ from (p + len (chunk_at p n C)) C = from p C.
Proof.
  intros Hp. rewrite from_from by exact Hp. unfold chunk_at.
  destruct (n <? 0).
  - rewrite skipn_all. apply app_nil_r.
  - apply firstn_then_rest.
Qed.

(** A download inside the blob of a chunk that is not empty brings bytes. *)
Lemma chunk_nonempty (p n : Z) (C : bytes) :
  0 <= p < len C -> n <> 0 -> 0 < len (chunk_at p n C).
Proof.
  intros Hp Hn. unfold chunk_at.
  assert (Hl : len (from p C) = len C - p) by (apply len_from; lia).
  destruct (n <? 0) eqn:E; [lia |].
  apply Z.ltb_ge in E. unfold upto, len in *.
  rewrite length_firstn. lia.
Qed.

(** A download to the end reaches the end. *)
Lemma chunk_to_end (p : Z) (C : bytes) :
  0 <= p <= len C -> p + len (chunk_at p (-1) C) = len C.
Proof.
  intros Hp. unfold chunk_at. simpl. rewrite len_from by exact Hp. lia.
Qed.

Lemma len_upto (n : Z) (b : bytes) :
  0 <= n -> len (upto n b) = Z.min n (len b).
Proof. intros H. unfold upto, len. rewrite length_firstn. lia. Qed.

Arguments len : simpl never.
Arguments from : simpl never.
Arguments upto : simpl never.
Arguments chunk_at : simpl never.

(** ** The reader, step by step *)

Lemma running_eta (r : Reader.t) (blob : BlobClient) (raw : _RawReader.t) :
  Reader._raw_reader r = Some raw ->
  (r, blob) =
  running r (_RawReader._size raw) blob (_RawReader._position raw)
    (ByteBuffer._bytes (Reader._current_part r)) (Reader._eof r)
    (Reader._current_pos r) (calls blob).
Proof.
  intros H. destruct r as [h sz rr pos cps [c B] e lt], blob, raw.
  simpl in *. subst rr. reflexivity.
Qed.

(** Unfolds the monad and the methods, down to the tests on integers. *)
Ltac run :=
  cbv beta iota zeta delta
    [bind ret raise out_of_fuel get put modify try_except on_fst on_snd fst snd
     record_call get_blob_properties_size download_blob upload_blob
     contents size_property upload_fault calls
     ByteBuffer.__init__ ByteBuffer.__len__ ByteBuffer.peek ByteBuffer.read
     ByteBuffer.empty ByteBuffer.fill ByteBuffer._chunk_size ByteBuffer._bytes
     _RawReader.__init__ _RawReader.set_position _RawReader.seek
     _RawReader._download_blob_chunk _RawReader.read
     _RawReader._size _RawReader._position
     Reader.self Reader.update Reader.with_raw_reader
     Reader.set_blob Reader.set_raw_reader Reader.set_current_pos
     Reader.set_current_part Reader.set_eof
     Reader._blob Reader._size Reader._raw_reader Reader._current_pos
     Reader._current_part_size Reader._current_part Reader._eof
     Reader._line_terminator
     Reader.close Reader.tell Reader._read_from_buffer Reader.fill_current_part
     running].

Section Running.

Variables (r : Reader.t) (N : Z) (blob : BlobClient).

Let C := contents blob.
Let chunk := ByteBuffer._chunk_size (Reader._current_part r).
Let St := running r N blob.

(** [self._raw_reader.read(n)] past the end: nothing is asked of the blob. *)
Lemma raw_read_done n p B e pos log :
  N <= p ->
  Reader.with_raw_reader (_RawReader.read n) (St p B e pos log)
  = (Ok [], St p B e pos log).
Proof.
  intros H. subst St.
  assert (E : (p >=? N) = true) by (apply Z.geb_le; lia).
  run. rewrite E. reflexivity.
Qed.

(** [self._raw_reader.read(n)] inside the blob: one download. *)
Lemma raw_read_more n p B e pos log :
  0 <= p < N ->
  Reader.with_raw_reader (_RawReader.read n) (St p B e pos log)
  = (Ok (chunk_at p n C),
     St (p + len (chunk_at p n C)) B e pos
        (log ++ [DownloadBlob p (length_arg n)])).
Proof.
  intros H. subst St C. unfold length_arg, chunk_at.
  assert (E1 : (p >=? N) = false) by (rewrite Z.geb_leb; apply Z.leb_gt; lia).
  assert (E2 : (p =? N) = false) by (apply Z.eqb_neq; lia).
  assert (E3 : (p <? 0) = false) by (apply Z.ltb_ge; lia).
  run. rewrite E1, E2.
  destruct (n =? -1) eqn:En; rewrite E3.
  - apply Z.eqb_eq in En. subst n. reflexivity.
  - reflexivity.
Qed.

(** [self._current_part.fill(self._raw_reader)] past the end. *)
Lemma fill_done p B e pos log :
  N <= p ->
  Reader.fill_current_part (St p B e pos log) = (Ok 0, St p B e pos log).
Proof.
  intros H. subst St.
  assert (E : (p >=? N) = true) by (apply Z.geb_le; lia).
  run. rewrite E. rewrite app_nil_r. reflexivity.
Qed.

(** [self._current_part.fill(self._raw_reader)] inside the blob. *)
Lemma fill_more p B e pos log :
  0 <= p < N ->
  Reader.fill_current_part (St p B e pos log)
  = (Ok (len (chunk_at p chunk C)),
     St (p + len (chunk_at p chunk C)) (B ++ chunk_at p chunk C) e pos
        (log ++ [DownloadBlob p (length_arg chunk)])).
Proof.
  intros H. subst St C chunk. unfold length_arg, chunk_at.
  assert (E1 : (p >=? N) = false) by (rewrite Z.geb_leb; apply Z.leb_gt; lia).
  assert (E2 : (p =? N) = false) by (apply Z.eqb_neq; lia).
  assert (E3 : (p <? 0) = false) by (apply Z.ltb_ge; lia).
  run. rewrite E1, E2.
  destruct (_ =? -1) eqn:En; rewrite E3.
  - apply Z.eqb_eq in En. rewrite En. reflexivity.
  - reflexivity.
Qed.

(** [_read_from_buffer(k)] for a size that is given. *)
Lemma read_from_buffer_some k p B e pos log :
  0 <= k ->
  Reader._read_from_buffer k (St p B e pos log)
  = (Ok (upto k B), St p (from k B) e (pos + len (upto k B)) log).
Proof.
  intros H. subst St.
  assert (E1 : (k >=? 0) = true) by (apply Z.geb_le; lia).
  assert (E2 : (k <? 0) = false) by (apply Z.ltb_ge; lia).
  run. rewrite E1, E2. reflexivity.
Qed.

(** [_read_from_buffer()]: the whole buffer. *)
Lemma read_from_buffer_all k p B e pos log :
  k < 0 ->
  Reader._read_from_buffer k (St p B e pos log)
  = (Ok B, St p [] e (pos + len B) log).
Proof.
  intros H. subst St.
  assert (E1 : (k >=? 0) = false) by (rewrite Z.geb_leb; apply Z.leb_gt; lia).
  assert (E2 : (len B <? 0) = false) by (apply Z.ltb_ge; apply len_nonneg).
  run. rewrite E1, E2.
  rewrite upto_all, from_all by lia. reflexivity.
Qed.

(** The loop of [_fill_buffer] is over when the buffer is long enough or
    the end of the stream was seen. *)
Lemma fill_loop_exit fuel size p B e pos log :
  (len B <? size) && negb e = false ->
  Reader._fill_buffer_loop fuel size (St p B e pos log)
  = (Ok tt, St p B e pos log).
Proof.
  intros H. subst St. destruct fuel; cbn [Reader._fill_buffer_loop];
    run; rewrite H; reflexivity.
Qed.

(** Otherwise it fills once, notes an empty fetch, and goes on. *)
Lemma fill_loop_next fuel size p B e pos log :
  (len B <? size) && negb e = true ->
  Reader._fill_buffer_loop (S fuel) size (St p B e pos log)
  = (bytes_read <- Reader.fill_current_part ;;
     (if bytes_read =? 0 then Reader.update (Reader.set_eof true) else ret tt) ;;
     Reader._fill_buffer_loop fuel size) (St p B e pos log).
Proof.
  intros H. subst St. cbn [Reader._fill_buffer_loop].
  unfold bind at 1. unfold Reader.self, on_fst, get, running.
  cbv beta iota. unfold Reader._eof, Reader._current_part, ByteBuffer.__len__,
    ByteBuffer._bytes. rewrite H. reflexivity.
Qed.

Lemma set_eof_running p B e pos log :
  Reader.update (Reader.set_eof true) (St p B e pos log)
  = (Ok tt, St p B true pos log).
Proof. reflexivity. Qed.

(** The loop of [_fill_buffer] on an open reader over a blob of the
    recorded size: it returns; cursor and configuration stay; what is
    buffered and what is left remotely together are what they were; it
    stops on a long enough buffer or at the end of the stream, and, with a
    chunk size other than 0, the end of the stream is the end of the blob. *)
Lemma fill_loop_spec fuel : forall size p B e pos log,
  0 <= p -> N = len C ->
  (Z.to_nat (size - len B) <= fuel)%nat ->
  exists p' B' e' log',
    Reader._fill_buffer_loop fuel size (St p B e pos log)
    = (Ok tt, St p' B' e' pos log') /\
    0 <= p' /\
    B' ++ from p' C = B ++ from p C /\
    (e' = true \/ size <= len B') /\
    (e = true -> p' = p /\ B' = B /\ e' = true /\ log' = log) /\
    (chunk <> 0 -> e = false -> e' = true -> N <= p').
Proof.
  assert (Hexit : forall fuel size p B e pos log,
            0 <= p ->
            (len B <? size) && negb e = false ->
            exists p' B' e' log',
              Reader._fill_buffer_loop fuel size (St p B e pos log)
              = (Ok tt, St p' B' e' pos log') /\
              0 <= p' /\
              B' ++ from p' C = B ++ from p C /\
              (e' = true \/ size <= len B') /\
              (e = true -> p' = p /\ B' = B /\ e' = true /\ log' = log) /\
              (chunk <> 0 -> e = false -> e' = true -> N <= p')).
  { clear. intros fuel size p B e pos log Hp Hc.
    exists p, B, e, log. rewrite (fill_loop_exit _ _ _ _ _ _ _ Hc).
    apply andb_false_iff in Hc.
    split; [reflexivity |]. split; [lia |]. split; [reflexivity |].
    split; [| split].
    - destruct Hc as [Hc | Hc].
      + right. apply Z.ltb_ge in Hc. lia.
      + left. destruct e; [reflexivity | discriminate].
    - intros He. repeat split; try reflexivity; exact He.
    - intros _ H1 H2. congruence. }
  induction fuel as [| fuel IH]; intros size p B e pos log Hp HN Hfuel.
  all: destruct ((len B <? size) && negb e) eqn:Hc;
    [| apply Hexit; assumption].
  - apply andb_true_iff in Hc. destruct Hc as [Hc _]. apply Z.ltb_lt in Hc. lia.
  - rewrite (fill_loop_next _ _ _ _ _ _ _ Hc).
    apply andb_true_iff in Hc. destruct Hc as [Hlt He].
    apply Z.ltb_lt in Hlt. destruct e; [discriminate |]. clear He.
    destruct (Z_le_gt_dec N p) as [Hend | Hin].
    + unfold bind. rewrite (fill_done _ _ _ _ _ Hend).
      change (0 =? 0) with true. cbv beta iota.
      rewrite set_eof_running.
      rewrite (fill_loop_exit fuel size p B true pos log)
        by (apply andb_false_r).
      exists p, B, true, log. repeat split; try tauto; try lia; congruence.
    + assert (Hin' : 0 <= p < N) by lia.
      unfold bind. rewrite (fill_more _ _ _ _ _ Hin').
      cbv beta iota.
      set (d := chunk_at p chunk C).
      assert (Hrest : (B ++ d) ++ from (p + len d) C = B ++ from p C).
      { rewrite <- app_assoc. f_equal. apply chunk_then_rest. lia. }
      pose proof (len_nonneg d) as Hd.
      destruct (len d =? 0) eqn:Hz.
      * apply Z.eqb_eq in Hz.
        rewrite set_eof_running.
        rewrite (fill_loop_exit fuel size _ _ true pos _)
          by (apply andb_false_r).
        eexists _, _, true, _. split; [reflexivity |].
        repeat split; try tauto; try lia; try discriminate.
        intros Hchunk _ _. exfalso.
        pose proof (chunk_nonempty p chunk C) as Hne. fold d in Hne.
        rewrite HN in Hin'. specialize (Hne Hin' Hchunk). lia.
      * apply Z.eqb_neq in Hz.
        destruct (IH size (p + len d) (B ++ d) false pos
                    (log ++ [DownloadBlob p (length_arg chunk)]))
          as (p' & B' & e' & log' & Heq & Hp' & Hpend & Hstop & _ & Hend').
        { lia. } { exact HN. } { rewrite len_app. lia. }
        exists p', B', e', log'. unfold ret at 1. cbv beta iota. rewrite Heq.
        repeat split; try tauto; try lia; try discriminate.
        rewrite Hpend. exact Hrest.
Qed.

Lemma self_running p B e pos log :
  Reader.self (St p B e pos log)
  = (Ok (fst (St p B e pos log)), St p B e pos log).
Proof. reflexivity. Qed.

Lemma set_current_pos_running v p B e pos log :
  Reader.update (Reader.set_current_pos v) (St p B e pos log)
  = (Ok tt, St p B e v log).
Proof. reflexivity. Qed.

(** [_fill_buffer(size)] is its loop, run for the missing bytes. *)
Lemma fill_buffer_unfold size p B e pos log :
  Reader._fill_buffer size (St p B e pos log)
  = Reader._fill_buffer_loop
      (Z.to_nat ((if size >=? 0 then size else chunk) - len B))
      (if size >=? 0 then size else chunk) (St p B e pos log).
Proof. reflexivity. Qed.

(** [read(size)] with [size < 0]: the buffer, then the rest of the blob;
    the cursor ends at the recorded size plus what the buffer held. *)
Lemma read_all_spec size p B e pos log :
  size < 0 -> 0 <= p -> N = len C ->
  exists p' log',
    Reader.read size (St p B e pos log)
    = (Ok (B ++ from p C), St p' [] e (Reader._size r + len B) log') /\
    N <= p' /\ 0 <= p'.
Proof.
  intros Hs Hp HN. unfold Reader.read.
  assert (E1 : (size =? 0) = false) by (apply Z.eqb_neq; lia).
  assert (E2 : (size <? 0) = true) by (apply Z.ltb_lt; lia).
  rewrite E1, E2.
  unfold bind at 1. rewrite self_running. cbv beta iota.
  unfold bind at 1. rewrite set_current_pos_running. cbv beta iota.
  unfold bind at 1. rewrite read_from_buffer_all by lia. cbv beta iota.
  unfold bind at 1.
  destruct (Z_le_gt_dec N p) as [Hend | Hin].
  - rewrite raw_read_done by exact Hend. cbv beta iota.
    exists p, log. rewrite (from_all p C) by lia.
    split; [reflexivity | lia].
  - rewrite raw_read_more by lia. cbv beta iota.
    eexists _, _. split; [reflexivity |].
    fold C. rewrite chunk_to_end by lia. lia.
Qed.

(** [read(k)] with [k > 0] returns at most [k] bytes, the next ones of
    the stream; a short read leaves the buffer empty and the end-of-stream
    flag set. *)
Lemma read_some_spec k p B e pos log :
  0 < k -> 0 <= p -> N = len C ->
  exists part p' B' e' log',
    Reader.read k (St p B e pos log)
    = (Ok part, St p' B' e' (pos + len part) log') /\
    0 <= p' /\
    part ++ B' ++ from p' C = B ++ from p C /\
    len part <= k /\
    (len part < k ->
     e' = true /\ B' = [] /\ (chunk <> 0 -> e = false -> N <= p')).
Proof.
  intros Hk Hp HN. unfold Reader.read.
  assert (E1 : (k =? 0) = false) by (apply Z.eqb_neq; lia).
  assert (E2 : (k <? 0) = false) by (apply Z.ltb_ge; lia).
  rewrite E1, E2.
  unfold bind at 1. rewrite self_running. cbv beta iota.
  change (ByteBuffer.__len__ (Reader._current_part (fst (St p B e pos log))))
    with (len B).
  change (Reader._eof (fst (St p B e pos log))) with e.
  destruct (len B >=? k) eqn:Hlen.
  - apply Z.geb_le in Hlen.
    rewrite read_from_buffer_some by lia.
    exists (upto k B), p, (from k B), e, log.
    split; [reflexivity |]. split; [exact Hp |].
    rewrite app_assoc, upto_from. rewrite len_upto by lia.
    split; [reflexivity |]. split; lia.
  - rewrite Z.geb_leb in Hlen. apply Z.leb_gt in Hlen.
    destruct e.
    + rewrite read_from_buffer_all by lia.
      exists B, p, [], true, log.
      split; [reflexivity |]. split; [exact Hp |].
      split; [reflexivity |]. split; [lia |].
      intros _. repeat split. intros _ H. discriminate.
    + unfold bind at 1. rewrite fill_buffer_unfold.
      assert (E3 : (k >=? 0) = true) by (apply Z.geb_le; lia).
      rewrite E3.
      destruct (fill_loop_spec (Z.to_nat (k - len B)) k p B false pos log)
        as (p1 & B1 & e1 & log1 & Heq & Hp1 & Hpend & Hstop & _ & Hend);
        [exact Hp | exact HN | lia |].
      rewrite Heq. cbv beta iota.
      rewrite read_from_buffer_some by lia.
      exists (upto k B1), p1, (from k B1), e1, log1.
      split; [reflexivity |]. split; [exact Hp1 |].
      rewrite app_assoc, upto_from. split; [exact Hpend |].
      rewrite len_upto by lia. split; [lia |].
      intros Hshort.
      assert (He1 : e1 = true) by (destruct Hstop; [assumption | lia]).
      split; [exact He1 |]. split; [apply from_all; lia |].
      intros Hc _. apply Hend; [exact Hc | reflexivity | exact He1].
Qed.

(** [seek(offset, whence)] with one of the three whence values: cursor and
    raw position move, the buffer is emptied, the flag is recomputed. *)
Lemma seek_spec offset whence p B e pos log :
  existsb (Z.eqb whence) WHENCE_CHOICES = true ->
  Reader.seek offset whence (St p B e pos log)
  = let new_position :=
      if whence =? WHENCE_START then offset
      else if whence =? WHENCE_CURRENT then pos + offset
      else Reader._size r + offset in
    (Ok new_position,
     St new_position [] (new_position =? Reader._size r) new_position log).
Proof.
  intros H. unfold Reader.seek. rewrite H. reflexivity.
Qed.

End Running.

Lemma from_0 (b : bytes) : from 0 b = b.
Proof. reflexivity. Qed.


(** An open reader over [C], written out. *)
Lemma opened_on_running (C : bytes) (st : Reader.state) :
  opened_on C st ->
  exists raw,
    Reader._raw_reader (fst st) = Some raw /\
    st = running (fst st) (len C) (snd st) (_RawReader._position raw)
           (ByteBuffer._bytes (Reader._current_part (fst st)))
           (Reader._eof (fst st)) (Reader._current_pos (fst st))
           (calls (snd st)).
Proof.
  destruct st as [r blob]. intros (_ & _ & raw & Hraw & HN). simpl in *.
  exists raw. split; [exact Hraw |]. rewrite <- HN.
  apply running_eta. exact Hraw.
Qed.

(** ** Reading *)

(** C2.  For every blob content [C], on a reader opened on it (in whatever
    state earlier calls left it), [seek(0)] then [read(-1)] returns exactly
    [C], and a second [read(-1)] right after returns the empty bytes. *)
Theorem read_all_idempotence (C : bytes) (st : Reader.state) :
  opened_on C st ->
  exists st1 st2 st3,
    Reader.seek 0 WHENCE_START st = (Ok 0, st1) /\
    Reader.read (-1) st1 = (Ok C, st2) /\
    Reader.read (-1) st2 = (Ok [], st3).
Proof.
  intros Hopen. destruct (opened_on_running C st Hopen) as (raw & _ & Hst).
  destruct Hopen as (HC & Hsize & _).
  set (r := fst st) in *. set (blob := snd st) in *.
  rewrite Hst. clear Hst.
  exists (running r (len C) blob 0 [] (0 =? Reader._size r) 0 (calls blob)).
  destruct (read_all_spec r (len C) blob (-1) 0 [] (0 =? Reader._size r) 0
              (calls blob)) as (p1 & log1 & Heq1 & HN1 & Hp1);
    [lia | lia | congruence |].
  destruct (read_all_spec r (len C) blob (-1) p1 []
              (0 =? Reader._size r) (Reader._size r + len []) log1)
    as (p2 & log2 & Heq2 & _ & _); [lia | lia | congruence |].
  eexists _, _. split; [| split].
  - rewrite seek_spec by reflexivity. reflexivity.
  - rewrite Heq1. rewrite HC, from_0. reflexivity.
  - rewrite Heq2. rewrite from_all by (rewrite HC; lia). reflexivity.
Qed.

(** C3.  For every blob content [C] and every split point [k >= 0], a
    reader at position 0 gets [C] from [read(k)] followed by [read(-1)],
    the same bytes as one [read(-1)] from position 0 gives. *)
Theorem split_read_is_full_read (C : bytes) (k : Z) (st : Reader.state) :
  opened_on C st -> at_start st -> 0 <= k ->
  exists a b st1 st2 st',
    Reader.read k st = (Ok a, st1) /\
    Reader.read (-1) st1 = (Ok b, st2) /\
    a ++ b = C /\
    Reader.read (-1) st = (Ok C, st').
Proof.
  intros Hopen (Hpos & Hbuf & raw & Hraw & Hp0) Hk.
  destruct (opened_on_running C st Hopen) as (raw' & Hraw' & Hst).
  assert (Hp : _RawReader._position raw' = 0) by congruence.
  destruct Hopen as (HC & Hsize & _).
  set (r := fst st) in *. set (blob := snd st) in *.
  rewrite Hbuf, Hpos, Hp in Hst. rewrite Hst. clear Hst.
  destruct (read_all_spec r (len C) blob (-1) 0 [] (Reader._eof r) 0
              (calls blob)) as (p0 & log0 & Heq0 & _ & _);
    [lia | lia | congruence |].
  rewrite HC, from_0 in Heq0.
  destruct (Z.eq_dec k 0) as [-> | Hk0].
  - exists [], C. eexists _, _, _.
    split; [reflexivity |]. split; [exact Heq0 |].
    split; [reflexivity | exact Heq0].
  - destruct (read_some_spec r (len C) blob k 0 [] (Reader._eof r) 0
                (calls blob))
      as (a & p1 & B1 & e1 & log1 & Heq1 & Hp1 & Hpend & _ & _);
      [lia | lia | congruence |].
    destruct (read_all_spec r (len C) blob (-1) p1 B1 e1 (0 + len a) log1)
      as (p2 & log2 & Heq2 & _ & _); [lia | exact Hp1 | congruence |].
    exists a, (B1 ++ from p1 (contents blob)). eexists _, _, _.
    split; [exact Heq1 |]. split; [exact Heq2 |].
    split; [| exact Heq0].
    rewrite Hpend. rewrite HC. apply from_0.
Qed.

Lemma read_all_idempotence_witness :
  opened_on (b_ "hello") (fresh (b_ "hello") 4) /\
  exists st1 st2 st3,
    Reader.seek 0 WHENCE_START (fresh (b_ "hello") 4) = (Ok 0, st1) /\
    Reader.read (-1) st1 = (Ok (b_ "hello"), st2) /\
    Reader.read (-1) st2 = (Ok [], st3).
Proof.
  assert (H : opened_on (b_ "hello") (fresh (b_ "hello") 4)).
  { split; [reflexivity |]. split; [reflexivity |].
    eexists. split; reflexivity. }
  split; [exact H |].
  exact (read_all_idempotence (b_ "hello") (fresh (b_ "hello") 4) H).
Defined.

Lemma split_read_is_full_read_witness :
  opened_on (b_ "hello") (fresh (b_ "hello") 4) /\
  at_start (fresh (b_ "hello") 4) /\ 0 <= 2 /\
  exists a b st1 st2 st',
    Reader.read 2 (fresh (b_ "hello") 4) = (Ok a, st1) /\
    Reader.read (-1) st1 = (Ok b, st2) /\
    a ++ b = b_ "hello" /\
    Reader.read (-1) (fresh (b_ "hello") 4) = (Ok (b_ "hello"), st').
Proof.
  assert (H1 : opened_on (b_ "hello") (fresh (b_ "hello") 4)).
  { split; [reflexivity |]. split; [reflexivity |].
    eexists. split; reflexivity. }
  assert (H2 : at_start (fresh (b_ "hello") 4)).
  { split; [reflexivity |]. split; [reflexivity |].
    eexists. split; reflexivity. }
  assert (H3 : 0 <= 2) by lia.
  split; [exact H1 |]. split; [exact H2 |]. split; [exact H3 |].
  exact (split_read_is_full_read (b_ "hello") 2 (fresh (b_ "hello") 4) H1 H2 H3).
Defined.



(** ** Writing *)

(** C1.  On a writer, [write(b"hello")] then [write(b"world")] leaves the
    blob holding exactly [b"world"], not [b"helloworld"], while [tell()]
    returns 10; in general every [write] of binary data replaces the blob's
    contents and adds the length of the data to the running size. *)
Theorem write_does_not_append (client : service) (h : handle)
    (blob : BlobClient) :
  upload_fault blob = None ->
  (exists st1 st2,
     Writer.write (PyBytes (b_ "hello"))
       (Writer.__init__ client (Some h), blob) = (Ok 5, st1) /\
     Writer.write (PyBytes (b_ "world")) st1 = (Ok 5, st2) /\
     contents (snd st2) = b_ "world" /\
     contents (snd st2) <> b_ "helloworld" /\
     Writer.tell st2 = (Ok 10, st2)) /\
  (forall (w : Writer.t) (remote : BlobClient) (data : bytes),
     Writer._blob w = Some h -> upload_fault remote = None ->
     exists st',
       Writer.write (PyBytes data) (w, remote) = (Ok (len data), st') /\
       contents (snd st') = data /\
       Writer.tell st' = (Ok (Writer._total_size w + len data), st')).
Proof.
  intros Hok. split.
  - destruct blob as [c sp uf log]. simpl in Hok. subst uf.
    eexists _, _. split; [reflexivity |]. split; [reflexivity |].
    split; [reflexivity |]. split; [discriminate | reflexivity].
  - intros [cl bl total] [c sp uf log] data Hb Hf. simpl in Hb, Hf.
    subst bl uf. eexists. split; [reflexivity |].
    split; reflexivity.
Qed.

Lemma write_does_not_append_witness :
  upload_fault (blob_of (b_ "old")) = None /\
  exists st1 st2,
    Writer.write (PyBytes (b_ "hello"))
      (Writer.__init__ BlobServiceClient (Some BlobHandle), blob_of (b_ "old"))
    = (Ok 5, st1) /\
    Writer.write (PyBytes (b_ "world")) st1 = (Ok 5, st2) /\
    contents (snd st2) = b_ "world" /\
    contents (snd st2) <> b_ "helloworld" /\
    Writer.tell st2 = (Ok 10, st2).
Proof.
  assert (H : upload_fault (blob_of (b_ "old")) = None) by reflexivity.
  split; [exact H |].
  exact (proj1 (write_does_not_append BlobServiceClient BlobHandle
                  (blob_of (b_ "old")) H)).
Defined.

(** C9.  [write] adds to the running size before it uploads: for binary
    [b], when the upload raises (the transport rejects it, or the bytes of
    [b] cannot be read), [write] raises the same error and [tell()]
    afterwards includes [len(b)] all the same.  [len(b)] is Python's: for a
    memoryview it counts items, not bytes. *)
Theorem failed_write_still_counted (w : Writer.t) (blob : BlobClient)
    (h : handle) (e : exn) (b : pyobj) (v : binary) (n : Z) :
  binary_view b = Some v ->
  length_of v = inr n ->
  Writer._blob w = Some h ->
  upload_raises v blob e ->
  exists st',
    Writer.write b (w, blob) = (Raise e, st') /\
    Writer.tell st' = (Ok (Writer._total_size w + n), st') /\
    contents (snd st') = contents blob /\
    calls (snd st') = calls blob ++ [upload_call (payload v)].
Proof.
  intros Hb Hn Hh Hup. destruct w as [cl bl total], blob as [c sp uf log].
  simpl in Hh. subst bl. unfold Writer.write. rewrite Hb.
  destruct v as [ln pl]. cbn [length_of payload] in *. subst ln.
  destruct Hup as [Hbad | ((data & Hdata) & Hf)];
    cbn [payload upload_fault] in *; subst.
  - eexists. split; [reflexivity |]. repeat split.
  - eexists. split; [reflexivity |]. repeat split.
Qed.

Lemma failed_write_still_counted_witness :
  let view := PyMemoryView (inr 2) (inr (b_ "abcdefgh")) in
  let blob := {| contents := []; size_property := None;
                 upload_fault := Some HttpResponseError; calls := [] |} in
  binary_view view
  = Some {| length_of := inr 2; payload := inr (b_ "abcdefgh") |} /\
  upload_raises {| length_of := inr 2; payload := inr (b_ "abcdefgh") |}
    blob HttpResponseError /\
  exists st',
    Writer.write view
      (Writer.__init__ BlobServiceClient (Some BlobHandle), blob)
    = (Raise HttpResponseError, st') /\
    Writer.tell st' = (Ok (0 + 2), st') /\
    contents (snd st') = [] /\
    calls (snd st') = [] ++ [UploadBlob (b_ "abcdefgh")].
Proof.
  cbv zeta.
  assert (Hup : upload_raises
                  {| length_of := inr 2; payload := inr (b_ "abcdefgh") |}
                  {| contents := []; size_property := None;
                     upload_fault := Some HttpResponseError; calls := [] |}
                  HttpResponseError).
  { right. split; [eexists; reflexivity | reflexivity]. }
  split; [reflexivity |]. split; [exact Hup |].
  exact (failed_write_still_counted
           (Writer.__init__ BlobServiceClient (Some BlobHandle))
           {| contents := []; size_property := None;
              upload_fault := Some HttpResponseError; calls := [] |}
           BlobHandle HttpResponseError
           (PyMemoryView (inr 2) (inr (b_ "abcdefgh")))
           {| length_of := inr 2; payload := inr (b_ "abcdefgh") |} 2
           eq_refl eq_refl eq_refl Hup).
Defined.

(** C10.  After [close()] the [closed] property is [True], the service
    client reference is gone and the blob handle is kept; a [write] of
    binary [b] after it still uploads the bytes of [b] and returns
    [len(b)], which for a memoryview is the number of its items. *)
Theorem write_after_close (w : Writer.t) (blob : BlobClient)
    (h : handle) (b : pyobj) (v : binary) (n : Z) (data : bytes) :
  binary_view b = Some v ->
  length_of v = inr n ->
  payload v = inr data ->
  Writer._blob w = Some h ->
  upload_fault blob = None ->
  exists st1 st2,
    Writer.close (w, blob) = (Ok tt, st1) /\
    Writer.closed st1 = (Ok true, st1) /\
    Writer._client (fst st1) = None /\
    Writer._blob (fst st1) = Some h /\
    Writer.write b st1 = (Ok n, st2) /\
    contents (snd st2) = data /\
    calls (snd st2) = calls blob ++ [UploadBlob data].
Proof.
  intros Hb Hn Hd Hh Hf. destruct w as [cl bl total], blob as [c sp uf log].
  simpl in Hh, Hf. subst bl uf. unfold Writer.write. rewrite Hb.
  destruct v as [ln pl]. cbn [length_of payload] in *. subst ln pl.
  destruct cl as [s |]; eexists _, _; repeat split.
Qed.

Lemma write_after_close_witness :
  let view := PyMemoryView (inr 2) (inr (b_ "abcdefgh")) in
  binary_view view
  = Some {| length_of := inr 2; payload := inr (b_ "abcdefgh") |} /\
  Writer._blob (Writer.__init__ BlobServiceClient (Some BlobHandle))
  = Some BlobHandle /\
  upload_fault (blob_of (b_ "old")) = None /\
  exists st1 st2,
    Writer.close
      (Writer.__init__ BlobServiceClient (Some BlobHandle), blob_of (b_ "old"))
    = (Ok tt, st1) /\
    Writer.closed st1 = (Ok true, st1) /\
    Writer._client (fst st1) = None /\
    Writer._blob (fst st1) = Some BlobHandle /\
    Writer.write view st1 = (Ok 2, st2) /\
    contents (snd st2) = b_ "abcdefgh" /\
    calls (snd st2)
    = calls (blob_of (b_ "old")) ++ [UploadBlob (b_ "abcdefgh")].
Proof.
  cbv zeta.
  split; [reflexivity |]. split; [reflexivity |]. split; [reflexivity |].
  exact (write_after_close
           (Writer.__init__ BlobServiceClient (Some BlobHandle))
           (blob_of (b_ "old")) BlobHandle
           (PyMemoryView (inr 2) (inr (b_ "abcdefgh")))
           {| length_of := inr 2; payload := inr (b_ "abcdefgh") |} 2
           (b_ "abcdefgh") eq_refl eq_refl eq_refl eq_refl eq_refl).
Defined.

(** ** Requests that are refused, and the blob without properties *)

(** C7.  Unsupported requests fail at once, with no remote call and no
    change of state: [open] with a mode other than "rb" and "wb" raises
    [NotImplementedError] and [Reader.readline] with a limit other than -1
    raises [NotImplementedError].  [Reader.seek] with a whence outside the
    three choices fails at once too, but with [TypeError] and not with the
    [ValueError] it is about to raise: formatting the message of that
    error, with one conversion for the tuple of the three choices, fails
    first. *)
Theorem unsupported_requests_fail_fast :
  (forall (mode : string) (buffer_size : Z) (client : service)
          (blob : option handle) (remote : BlobClient),
     mode <> READ_BINARY -> mode <> WRITE_BINARY ->
     open mode buffer_size client blob remote
     = (Raise NotImplementedError, remote)) /\
  (forall (offset whence : Z) (st : Reader.state),
     ~ In whence WHENCE_CHOICES ->
     Reader.seek offset whence st = (Raise TypeError, st)) /\
  (forall (fuel : nat) (limit : Z) (st : Reader.state),
     limit <> -1 ->
     Reader.readline fuel limit st = (Raise NotImplementedError, st)).
Proof.
  split; [| split].
  - intros mode buffer_size client blob remote Hr Hw. unfold open.
    apply String.eqb_neq in Hr. apply String.eqb_neq in Hw.
    rewrite Hr, Hw. reflexivity.
  - intros offset whence st Hin. unfold Reader.seek.
    destruct (existsb (Z.eqb whence) WHENCE_CHOICES) eqn:E.
    + exfalso. apply Hin. apply existsb_exists in E.
      destruct E as (x & Hx & Heq). apply Z.eqb_eq in Heq. subst x. exact Hx.
    + reflexivity.
  - intros fuel limit st Hl. unfold Reader.readline.
    apply Z.eqb_neq in Hl. rewrite Hl. reflexivity.
Qed.

Lemma unsupported_requests_fail_fast_witness :
  ("rwb"%string <> READ_BINARY /\ "rwb"%string <> WRITE_BINARY /\
   open "rwb" DEFAULT_BUFFER_SIZE BlobServiceClient (Some BlobHandle)
     (blob_of (b_ "data"))
   = (Raise NotImplementedError, blob_of (b_ "data"))) /\
  (~ In 3 WHENCE_CHOICES /\
   Reader.seek 1 3 (fresh (b_ "data") 4)
   = (Raise TypeError, fresh (b_ "data") 4)) /\
  (10 <> -1 /\
   Reader.readline 5 10 (fresh (b_ "data") 4)
   = (Raise NotImplementedError, fresh (b_ "data") 4)).
Proof.
  assert (H1 : "rwb"%string <> READ_BINARY) by discriminate.
  assert (H2 : "rwb"%string <> WRITE_BINARY) by discriminate.
  assert (H3 : ~ In 3 WHENCE_CHOICES).
  { simpl. intros [H | [H | [H | H]]]; try discriminate H; exact H. }
  assert (H4 : 10 <> -1) by discriminate.
  split; [| split].
  - split; [exact H1 |]. split; [exact H2 |].
    exact (proj1 unsupported_requests_fail_fast "rwb"%string
             DEFAULT_BUFFER_SIZE BlobServiceClient (Some BlobHandle)
             (blob_of (b_ "data")) H1 H2).
  - split; [exact H3 |].
    exact (proj1 (proj2 unsupported_requests_fail_fast) 1 3
             (fresh (b_ "data") 4) H3).
  - split; [exact H4 |].
    exact (proj2 (proj2 unsupported_requests_fail_fast) 5%nat 10
             (fresh (b_ "data") 4) H4).
Defined.

(** C8.  When the lookup of the blob's size fails while a reader is
    built, the constructor does not raise: the reader has size 0, and a
    [read(-1)] on it returns the empty bytes, raises nothing and downloads
    nothing (the failed lookup is the only call the blob has received). *)
Theorem missing_properties_tolerated (h : handle) (buffer_size : Z)
    (line_terminator : bytes) (blob : BlobClient) :
  size_property blob = None ->
  exists r blob1 st2,
    Reader.__init__ (Some h) buffer_size line_terminator blob = (Ok r, blob1) /\
    Reader._size r = 0 /\
    Reader.read (-1) (r, blob1) = (Ok [], st2) /\
    calls (snd st2) = calls blob ++ [GetBlobProperties].
Proof.
  intros H. destruct blob as [c sp uf log]. simpl in H. subst sp.
  eexists _, _, _. repeat split.
Qed.

Lemma missing_properties_tolerated_witness :
  size_property {| contents := b_ "data"; size_property := None;
                   upload_fault := None; calls := [] |} = None /\
  exists r blob1 st2,
    Reader.__init__ (Some BlobHandle) 4 BINARY_NEWLINE
      {| contents := b_ "data"; size_property := None;
         upload_fault := None; calls := [] |} = (Ok r, blob1) /\
    Reader._size r = 0 /\
    Reader.read (-1) (r, blob1) = (Ok [], st2) /\
    calls (snd st2) = [] ++ [GetBlobProperties].
Proof.
  split; [reflexivity |].
  exact (missing_properties_tolerated BlobHandle 4 BINARY_NEWLINE
           {| contents := b_ "data"; size_property := None;
              upload_fault := None; calls := [] |} eq_refl).
Defined.

(** ** The cursor *)

Lemma keeps_ret A (a : A) : keeps (ret a).
Proof. intros N st H. exact H. Qed.

Lemma keeps_raise A (e : exn) : keeps (@raise _ A e).
Proof. intros N st H. exact H. Qed.

Lemma keeps_out_of_fuel A : keeps (@out_of_fuel _ A).
Proof. intros N st H. exact H. Qed.

Lemma keeps_bind A B (m : M Reader.state A) (k : A -> M Reader.state B) :
  keeps m -> (forall a, keeps (k a)) -> keeps (bind m k).
Proof.
  intros Hm Hk N st H. specialize (Hm N st H). unfold bind.
  destruct (m st) as [[a | e |] s']; simpl in *.
  - apply Hk. exact Hm.
  - exact Hm.
  - exact Hm.
Qed.

Lemma keeps_self : keeps Reader.self.
Proof. intros N [r blob] H. exact H. Qed.

Lemma keeps_update (f : Reader.t -> Reader.t) :
  (forall r, Reader._size (f r) = Reader._size r /\
             Reader._current_pos (f r) = Reader._current_pos r) ->
  keeps (Reader.update f).
Proof.
  intros Hf N [r blob] H. unfold cursor_ok, cursor in *. simpl in *.
  destruct (Hf r) as [E1 E2]. rewrite E1, E2. exact H.
Qed.

Lemma keeps_with_raw_reader A (m : M _RawReader.state A) :
  keeps (Reader.with_raw_reader m).
Proof.
  intros N [r blob] H. unfold Reader.with_raw_reader.
  destruct (Reader._raw_reader r) as [raw |]; [| exact H].
  destruct (m (raw, blob)) as [o [raw' blob']]. exact H.
Qed.

Lemma keeps_read_from_buffer size : keeps (Reader._read_from_buffer size).
Proof.
  intros N [r blob] (H0 & H1 & H2). unfold cursor_ok, cursor in *.
  destruct r as [h sz raw pos cps [c B] e lt]. simpl in H0, H1, H2.
  run. destruct (size >=? 0); destruct (_ <? 0); simpl;
    (split; [assumption |]); (split; [assumption |]);
    match goal with |- 0 <= _ + len ?x => pose proof (len_nonneg x); lia end.
Qed.

Lemma keeps_fill_current_part : keeps Reader.fill_current_part.
Proof.
  unfold Reader.fill_current_part, ByteBuffer.fill.
  apply keeps_bind; [apply keeps_self | intros r].
  destruct (Reader._raw_reader r); [| apply keeps_raise].
  apply keeps_bind.
  - apply keeps_bind; [apply keeps_with_raw_reader | intros d; apply keeps_ret].
  - intros p. apply keeps_bind; [| intros; apply keeps_ret].
    apply keeps_update. intros r0. split; reflexivity.
Qed.

Lemma keeps_fill_buffer_loop fuel size :
  keeps (Reader._fill_buffer_loop fuel size).
Proof.
  induction fuel as [| fuel IH]; cbn [Reader._fill_buffer_loop];
    (apply keeps_bind; [apply keeps_self | intros r]);
    destruct (_ && _); try apply keeps_ret; try apply keeps_out_of_fuel.
  apply keeps_bind; [apply keeps_fill_current_part | intros n].
  apply keeps_bind; [| intros _; exact IH].
  destruct (n =? 0); [| apply keeps_ret].
  apply keeps_update. intros r0. split; reflexivity.
Qed.

Lemma keeps_fill_buffer size : keeps (Reader._fill_buffer size).
Proof.
  unfold Reader._fill_buffer.
  apply keeps_bind; [apply keeps_self | intros r].
  apply keeps_fill_buffer_loop.
Qed.

(** A call on the raw reader leaves the cursor alone. *)
Lemma cursor_with_raw_reader A (m : M _RawReader.state A) st :
  cursor (snd (Reader.with_raw_reader m st)) = cursor st.
Proof.
  destruct st as [r blob]. unfold Reader.with_raw_reader.
  destruct (Reader._raw_reader r) as [raw |]; [| reflexivity].
  destruct (m (raw, blob)) as [o [raw' blob']]. reflexivity.
Qed.

(** After [read(size)] with [size < 0] the cursor is the recorded size
    plus the number of bytes the buffer held, however the read ends. *)
Lemma cursor_after_read_all size (st : Reader.state) :
  size < 0 ->
  cursor (snd (Reader.read size st))
  = Reader._size (fst st)
    + len (ByteBuffer._bytes (Reader._current_part (fst st))).
Proof.
  intros Hs. destruct st as [r blob]. unfold Reader.read.
  assert (E1 : (size =? 0) = false) by (apply Z.eqb_neq; lia).
  assert (E2 : (size <? 0) = true) by (apply Z.ltb_lt; lia).
  assert (E3 : forall B, (len B <? 0) = false)
    by (intros B; apply Z.ltb_ge; apply len_nonneg).
  rewrite E1, E2.
  destruct r as [h sz raw pos cps [c B] e lt].
  cbv beta iota zeta delta
    [bind ret get modify on_fst fst snd Reader.self Reader.update
     Reader._read_from_buffer ByteBuffer.read ByteBuffer.__len__
     ByteBuffer._bytes ByteBuffer._chunk_size
     Reader.set_current_pos Reader.set_current_part
     Reader._blob Reader._size Reader._raw_reader Reader._current_pos
     Reader._current_part_size Reader._current_part Reader._eof
     Reader._line_terminator].
  change (-1 >=? 0) with false. cbv beta iota. rewrite E3. cbv beta iota.
  match goal with
  | |- context [Reader.with_raw_reader ?m ?s] =>
      pose proof (cursor_with_raw_reader _ m s) as Hc;
      destruct (Reader.with_raw_reader m s) as [[d | x |] s']
  end; simpl in Hc; unfold cursor in *; simpl; rewrite Hc;
    rewrite upto_all by lia; reflexivity.
Qed.

Create HintDb keeps.
#[local] Hint Resolve keeps_ret keeps_raise keeps_out_of_fuel keeps_self
  keeps_with_raw_reader keeps_read_from_buffer keeps_fill_current_part
  keeps_fill_buffer_loop keeps_fill_buffer : keeps.

Ltac keeps_step :=
  first
    [ solve [auto with keeps]
    | apply keeps_update; intros ?; split; reflexivity
    | apply keeps_bind; [| intros ?]
    | match goal with
      | |- keeps (if ?b then _ else _) => destruct b
      | |- keeps (match ?x with _ => _ end) => destruct x
      end ].

(** Setting the cursor to the recorded size keeps it from being negative. *)
Lemma keeps_jump_to_size A (k : M Reader.state A) :
  keeps k ->
  keeps (r <- Reader.self ;;
         Reader.update (Reader.set_current_pos (Reader._size r)) ;; k).
Proof.
  intros Hk N [r blob] (H0 & H1 & H2).
  change (cursor_ok N
            (snd (k (Reader.set_current_pos (Reader._size r) r, blob)))).
  apply Hk. unfold cursor_ok, cursor in *. simpl in *.
  split; [exact H0 |]. split; [exact H1 | lia].
Qed.

Lemma keeps_read size : keeps (Reader.read size).
Proof.
  unfold Reader.read. destruct (size =? 0); [apply keeps_ret |].
  destruct (size <? 0).
  - apply keeps_jump_to_size. repeat keeps_step.
  - repeat keeps_step.
Qed.

Lemma keeps_readinto b : keeps (Reader.readinto b).
Proof.
  unfold Reader.readinto.
  apply keeps_bind; [apply keeps_read | intros data].
  destruct data; apply keeps_ret.
Qed.

Lemma keeps_readline_loop fuel : forall the_line,
  keeps (Reader.readline_loop fuel the_line).
Proof.
  induction fuel as [| fuel IH]; intros the_line;
    cbn [Reader.readline_loop];
    (apply keeps_bind; [apply keeps_self | intros r]);
    destruct (negb _); try apply keeps_ret; try apply keeps_out_of_fuel.
  destruct (index _ _).
  - repeat keeps_step.
  - apply keeps_bind; [apply keeps_read_from_buffer | intros part].
    apply keeps_bind; [apply keeps_fill_buffer | intros _]. apply IH.
Qed.

Lemma keeps_readline fuel limit : keeps (Reader.readline fuel limit).
Proof.
  unfold Reader.readline. destruct (negb _); [apply keeps_raise |].
  apply keeps_readline_loop.
Qed.

Lemma keeps_close : keeps Reader.close.
Proof. unfold Reader.close. repeat keeps_step. Qed.

(** A seek that aims at a position that is not negative keeps the cursor
    from being negative, and a refused seek changes nothing. *)
Lemma cursor_ok_seek N offset whence st :
  cursor_ok N st ->
  (In whence WHENCE_CHOICES -> 0 <= seek_target offset whence st) ->
  cursor_ok N (snd (Reader.seek offset whence st)).
Proof.
  intros Hok Htarget. unfold Reader.seek.
  destruct (existsb (Z.eqb whence) WHENCE_CHOICES) eqn:E; [| exact Hok].
  assert (Hin : In whence WHENCE_CHOICES).
  { apply existsb_exists in E. destruct E as (x & Hx & Heq).
    apply Z.eqb_eq in Heq. subst x. exact Hx. }
  specialize (Htarget Hin). destruct st as [r blob].
  destruct Hok as (H0 & H1 & H2).
  cbn [negb]. set (np := seek_target offset whence (r, blob)) in *.
  change (cursor_ok N
            (snd ((Reader.with_raw_reader (_RawReader.seek np) ;;
                   Reader.update
                     (fun r => Reader.set_current_part
                                 (ByteBuffer.empty (Reader._current_part r)) r) ;;
                   Reader.update
                     (fun r => Reader.set_eof
                                 (Reader._current_pos r =? Reader._size r) r) ;;
                   r <- Reader.self ;;
                   ret (Reader._current_pos r))
                    (Reader.set_current_pos np r, blob)))).
  match goal with
  | |- cursor_ok _ (snd (?k ?s)) => assert (Hk : keeps k) by repeat keeps_step;
                                  apply Hk
  end.
  unfold cursor_ok, cursor in *. simpl in *.
  split; [exact H0 |]. split; [exact H1 | exact Htarget].
Qed.

(** Every operation but a seek keeps the cursor from being negative. *)
Lemma cursor_ok_perform N (o : op) (st : Reader.state) :
  cursor_ok N st ->
  match o with
  | Seek offset whence =>
      In whence WHENCE_CHOICES -> 0 <= seek_target offset whence st
  | _ => True
  end ->
  cursor_ok N (perform o st).
Proof.
  intros Hok Hseek. destruct o; unfold perform.
  - apply keeps_close. exact Hok.
  - destruct st. exact Hok.
  - destruct st. exact Hok.
  - destruct st. exact Hok.
  - apply cursor_ok_seek; assumption.
  - destruct st. exact Hok.
  - destruct st. exact Hok.
  - apply keeps_read. exact Hok.
  - apply keeps_read. exact Hok.
  - apply keeps_readinto. exact Hok.
  - apply keeps_readline. exact Hok.
Qed.

Lemma cursor_ok_perform_all N (ops : list op) : forall (n : nat) st,
  cursor_ok N st -> seeks_forward ops st ->
  cursor_ok N (perform_all (firstn n ops) st).
Proof.
  induction ops as [| o rest IH]; intros n st Hok Hfw.
  - destruct n; exact Hok.
  - destruct n as [| n]; [exact Hok |].
    destruct Hfw as [Ho Hrest]. cbn [firstn]. unfold perform_all.
    cbn [fold_left]. apply IH; [| exact Hrest].
    apply cursor_ok_perform; [exact Hok |].
    destruct o; try exact I. exact Ho.
Qed.

(** C6, as the code has it.  When the recorded size is not negative and
    every accepted seek aims at a position that is not negative, the cursor
    is not negative after any of the reader's operations; and right after a
    read with [size < 0] that found the internal buffer empty, the cursor
    is the recorded size. *)
Theorem cursor_never_negative (ops : list op) (st : Reader.state) :
  0 <= Reader._size (fst st) -> 0 <= cursor st -> seeks_forward ops st ->
  (forall n : nat, 0 <= cursor (perform_all (firstn n ops) st)) /\
  (forall size : Z,
     size < 0 ->
     ByteBuffer._bytes (Reader._current_part (fst (perform_all ops st))) = [] ->
     cursor (perform (Read size) (perform_all ops st))
     = Reader._size (fst st)).
Proof.
  intros Hsize Hcur Hfw.
  assert (Hok : cursor_ok (Reader._size (fst st)) st)
    by (split; [reflexivity | split; assumption]).
  split.
  - intros n. apply (cursor_ok_perform_all _ ops n st Hok Hfw).
  - intros size Hneg Hempty. unfold perform.
    rewrite cursor_after_read_all by exact Hneg. rewrite Hempty.
    pose proof (cursor_ok_perform_all _ ops (List.length ops) st Hok Hfw)
      as (Hsame & _ & _).
    rewrite firstn_all in Hsame. rewrite Hsame.
    change (len []) with 0. lia.
Qed.

Lemma cursor_never_negative_witness :
  0 <= Reader._size (fst (fresh (b_ "abcdef") 4)) /\
  0 <= cursor (fresh (b_ "abcdef") 4) /\
  seeks_forward [Read 1; Seek 2 WHENCE_CURRENT; Readline 9 (-1); Tell]
    (fresh (b_ "abcdef") 4) /\
  (forall n : nat,
     0 <= cursor
            (perform_all
               (firstn n [Read 1; Seek 2 WHENCE_CURRENT; Readline 9 (-1); Tell])
               (fresh (b_ "abcdef") 4))) /\
  (forall size : Z,
     size < 0 ->
     ByteBuffer._bytes
       (Reader._current_part
          (fst (perform_all
                  [Read 1; Seek 2 WHENCE_CURRENT; Readline 9 (-1); Tell]
                  (fresh (b_ "abcdef") 4)))) = [] ->
     cursor
       (perform (Read size)
          (perform_all [Read 1; Seek 2 WHENCE_CURRENT; Readline 9 (-1); Tell]
             (fresh (b_ "abcdef") 4)))
     = Reader._size (fst (fresh (b_ "abcdef") 4))).
Proof.
  assert (H1 : 0 <= Reader._size (fst (fresh (b_ "abcdef") 4)))
    by (vm_compute; discriminate).
  assert (H2 : 0 <= cursor (fresh (b_ "abcdef") 4))
    by (vm_compute; discriminate).
  assert (H3 : seeks_forward
                 [Read 1; Seek 2 WHENCE_CURRENT; Readline 9 (-1); Tell]
                 (fresh (b_ "abcdef") 4)).
  { repeat split. intros _. vm_compute. discriminate. }
  split; [exact H1 |]. split; [exact H2 |]. split; [exact H3 |].
  exact (cursor_never_negative
           [Read 1; Seek 2 WHENCE_CURRENT; Readline 9 (-1); Tell]
           (fresh (b_ "abcdef") 4) H1 H2 H3).
Defined.

(** C6 as stated fails on the code.  A seek to offset -1 from the start is
    accepted and leaves the cursor at -1; and a [read(-1)] that follows a
    [read(1)] which left three bytes in the buffer ends with the cursor at
    9 on a blob of size 6. *)
Lemma cursor_claim_counterexample :
  (cursor (perform (Seek (-1) WHENCE_START) (fresh (b_ "abcdef") 4)) = -1 /\
   ~ 0 <= cursor (perform (Seek (-1) WHENCE_START) (fresh (b_ "abcdef") 4))) /\
  (ByteBuffer._bytes
     (Reader._current_part (fst (perform (Read 1) (fresh (b_ "abcdef") 4))))
   = b_ "bcd" /\
   Reader.read (-1) (perform (Read 1) (fresh (b_ "abcdef") 4))
   = (Ok (b_ "bcdef"),
      perform (Read (-1)) (perform (Read 1) (fresh (b_ "abcdef") 4))) /\
   cursor (perform (Read (-1)) (perform (Read 1) (fresh (b_ "abcdef") 4))) = 9 /\
   Reader._size
     (fst (perform (Read (-1)) (perform (Read 1) (fresh (b_ "abcdef") 4)))) = 6 /\
   cursor (perform (Read (-1)) (perform (Read 1) (fresh (b_ "abcdef") 4)))
   <> Reader._size
        (fst (perform (Read (-1)) (perform (Read 1) (fresh (b_ "abcdef") 4))))).
Proof.
  split; [split | ].
  - vm_compute. reflexivity.
  - vm_compute. intros H. apply H. reflexivity.
  - repeat split; try (vm_compute; reflexivity).
    vm_compute. discriminate.
Qed.

(** ** Lines *)

Section Lines.

Variables (r : Reader.t) (N : Z) (blob : BlobClient).

Let C := contents blob.
Let chunk := ByteBuffer._chunk_size (Reader._current_part r).
Let terminator := Reader._line_terminator r.
Local Abbreviation St := (running r N blob).

(** The loop of [readline] is over at the end of the stream with nothing
    buffered. *)
Lemma readline_loop_done fuel the_line p pos log :
  Reader.readline_loop fuel the_line (St p [] true pos log)
  = (Ok the_line, St p [] true pos log).
Proof. destruct fuel; reflexivity. Qed.

(** With the terminator in the buffer, the line ends right after it. *)
Lemma readline_loop_found fuel the_line i p B e pos log :
  negb (e && (len B =? 0)) = true ->
  index terminator B = Some i -> 0 <= i ->
  Reader.readline_loop (S fuel) the_line (St p B e pos log)
  = (Ok (the_line ++ upto (i + 1) B),
     St p (from (i + 1) B) e (pos + len (upto (i + 1) B)) log).
Proof.
  intros Hc Hi H0. cbn [Reader.readline_loop].
  unfold bind at 1. rewrite self_running. cbv beta iota.
  change (ByteBuffer.__len__ (Reader._current_part (fst (St p B e pos log))))
    with (len B).
  change (Reader._eof (fst (St p B e pos log))) with e.
  rewrite Hc.
  change (ByteBuffer.peek (Reader._current_part (fst (St p B e pos log))))
    with B.
  change (Reader._line_terminator (fst (St p B e pos log))) with terminator.
  rewrite Hi. unfold bind.
  rewrite read_from_buffer_some by lia. reflexivity.
Qed.

(** Without it, the buffer goes to the line, the buffer is filled again,
    and the loop goes on. *)
Lemma readline_loop_more fuel the_line p B e pos log :
  negb (e && (len B =? 0)) = true ->
  index terminator B = None ->
  Reader.readline_loop (S fuel) the_line (St p B e pos log)
  = (Reader._fill_buffer (-1) ;; Reader.readline_loop fuel (the_line ++ B))
      (St p [] e (pos + len B) log).
Proof.
  intros Hc Hi. cbn [Reader.readline_loop].
  unfold bind at 1. rewrite self_running. cbv beta iota.
  change (ByteBuffer.__len__ (Reader._current_part (fst (St p B e pos log))))
    with (len B).
  change (Reader._eof (fst (St p B e pos log))) with e.
  rewrite Hc.
  change (ByteBuffer.peek (Reader._current_part (fst (St p B e pos log))))
    with B.
  change (Reader._line_terminator (fst (St p B e pos log))) with terminator.
  rewrite Hi. unfold bind at 1.
  rewrite read_from_buffer_all by lia. reflexivity.
Qed.

(** At the end of the stream [_fill_buffer] does nothing. *)
Lemma fill_buffer_at_eof size p B pos log :
  Reader._fill_buffer size (St p B true pos log)
  = (Ok tt, St p B true pos log).
Proof.
  rewrite fill_buffer_unfold. apply fill_loop_exit.
  apply andb_false_r.
Qed.


End Lines.



(** [fresh C buffer_size] is what [open] returns in mode "rb" on a blob
    that holds [C] and reports its size. *)
Lemma open_read_binary (C : bytes) (buffer_size : Z) (client : service) :
  open READ_BINARY buffer_size client (Some BlobHandle) (blob_of C)
  = (Ok (AReader (fst (fresh C buffer_size))), snd (fresh C buffer_size)).
Proof. reflexivity. Qed.

(** * Further properties of the readers and the writer *)

(** ** More vocabulary *)



(** The bytes an open reader has still to deliver: what it has buffered,
    then the blob from the raw position on. *)
Definition pending (st : Reader.state) : bytes :=
  ByteBuffer._bytes (Reader._current_part (fst st)) ++
  match Reader._raw_reader (fst st) with
  | Some raw => from (_RawReader._position raw) (contents (snd st))
  | None => []
  end.

(** An open reader over [C] in a state the methods can work from: the
    chunk size is positive, the raw position is not negative, and the
    end-of-stream flag is set only with the raw position at the end. *)
Definition steady (C : bytes) (st : Reader.state) : Prop :=
  opened_on C st /\
  0 < chunk_size_of st /\
  exists raw,
    Reader._raw_reader (fst st) = Some raw /\
    0 <= _RawReader._position raw /\
    (Reader._eof (fst st) = true -> len C <= _RawReader._position raw).

(** The first line of [s] for the terminator byte [x]: up to and with the
    first [x], or all of [s] when it has none. *)
Fixpoint first_line (x : byte) (s : bytes) : bytes :=
  match s with
  | [] => []
  | y :: s' => if Byte.eqb x y then [y] else y :: first_line x s'
  end.

(** ** The writer, call after call *)

Lemma write_binary_ok (w : Writer.t) (blob : BlobClient) (h : handle)
    (data : bytes) :
  Writer._blob w = Some h -> upload_fault blob = None ->
  Writer.write (PyBytes data) (w, blob)
  = (Ok (len data),
     (Writer.set_total_size (Writer._total_size w + len data) w,
      {| contents := data; size_property := size_property blob;
         upload_fault := None; calls := calls blob ++ [UploadBlob data] |})).
Proof.
  intros Hh Hf. destruct w as [cl bl total], blob as [c sp uf log].
  simpl in Hh, Hf. subst bl uf. reflexivity.
Qed.



(** X2.  What one [write(b)] does, whatever [b], the writer and the blob
    are.  A value that is not binary raises [TypeError] and changes
    nothing; so does a binary value on which [len] raises, with the error
    of [len].  Otherwise the running size grows by [len(b)] (for a
    memoryview the number of items, not of bytes), also when the upload
    then fails; the blob receives one upload call exactly when the writer
    has its handle; [write] returns [len(b)] when it returns, and the
    contents are then the bytes of [b]; when it raises they are
    unchanged. *)
Theorem write_effects (b : pyobj) (w : Writer.t) (blob : BlobClient) :
  let st' := snd (Writer.write b (w, blob)) in
  match binary_view b with
  | None =>
      Writer.write b (w, blob) = (Raise TypeError, (w, blob))
  | Some v =>
      match length_of v with
      | inl e => Writer.write b (w, blob) = (Raise e, (w, blob))
      | inr n =>
          Writer._total_size (fst st') = Writer._total_size w + n /\
          calls (snd st')
          = calls blob ++
            match Writer._blob w with
            | Some _ => [upload_call (payload v)]
            | None => []
            end /\
          match fst (Writer.write b (w, blob)) with
          | Ok m => m = n /\ payload v = inr (contents (snd st'))
          | _ => contents (snd st') = contents blob
          end
      end
  end.
Proof.
  destruct w as [cl bl total], blob as [c sp uf log].
  unfold Writer.write. destruct (binary_view b) as [[ln pl] |]; [| reflexivity].
  cbn [length_of payload].
  destruct ln as [e | n]; [reflexivity |].
  destruct bl as [h |], pl as [e' | data], uf as [e |]; cbn;
    rewrite ?app_nil_r; repeat split; reflexivity.
Qed.

(** A view of two four-byte items: [write] counts and returns 2 and
    uploads the eight bytes. *)
Example write_counts_items :
  let view := PyMemoryView (inr 2) (inr (b_ "abcdefgh")) in
  let st' := snd (Writer.write view
                    (Writer.__init__ BlobServiceClient (Some BlobHandle),
                     blob_of [])) in
  fst (Writer.write view
         (Writer.__init__ BlobServiceClient (Some BlobHandle), blob_of []))
  = Ok 2 /\
  Writer.tell st' = (Ok 2, st') /\
  contents (snd st') = b_ "abcdefgh".
Proof. repeat split. Qed.

(** ** Seeking *)

(** X3.  On an open reader, [seek(offset, whence)] with one of the three
    whence values returns the position it computes, [tell()] then returns
    the same, the buffer is empty, the raw reader stands at that position,
    the end-of-stream flag says whether it is the recorded size, and the
    blob has received no call.  Relative seeks add up: [seek(a)] followed by
    [seek(b, WHENCE_CURRENT)] leaves the reader as [seek(a + b)] does. *)
Theorem seek_then_tell (offset whence : Z) (st : Reader.state)
    (raw : _RawReader.t) :
  Reader._raw_reader (fst st) = Some raw ->
  In whence WHENCE_CHOICES ->
  let target := seek_target offset whence st in
  let st' := snd (Reader.seek offset whence st) in
  Reader.seek offset whence st = (Ok target, st') /\
  Reader.tell st' = (Ok target, st') /\
  ByteBuffer._bytes (Reader._current_part (fst st')) = [] /\
  Reader._raw_reader (fst st')
  = Some (_RawReader.set_position target raw) /\
  Reader._eof (fst st') = (target =? Reader._size (fst st)) /\
  snd st' = snd st /\
  (forall a b : Z,
     snd (Reader.seek b WHENCE_CURRENT (snd (Reader.seek a WHENCE_START st)))
     = snd (Reader.seek (a + b) WHENCE_START st)).
Proof.
  intros Hraw Hin target st'. subst target st'.
  destruct st as [r blob]. destruct r as [h sz rr pos cps [c B] e lt].
  destruct blob as [ct sp uf log]. destruct raw as [rs rp].
  simpl in Hraw. subst rr.
  assert (Hw : existsb (Z.eqb whence) WHENCE_CHOICES = true).
  { apply existsb_exists. exists whence. split; [exact Hin | apply Z.eqb_refl]. }
  unfold Reader.seek. rewrite Hw.
  repeat split.
Qed.

Lemma seek_then_tell_witness :
  Reader._raw_reader (fst (fresh (b_ "abcdef") 4))
  = Some (_RawReader.__init__ (len (b_ "abcdef"))) /\
  In WHENCE_END WHENCE_CHOICES /\
  let target := seek_target (-2) WHENCE_END (fresh (b_ "abcdef") 4) in
  let st' := snd (Reader.seek (-2) WHENCE_END (fresh (b_ "abcdef") 4)) in
  Reader.seek (-2) WHENCE_END (fresh (b_ "abcdef") 4) = (Ok target, st') /\
  Reader.tell st' = (Ok target, st') /\
  ByteBuffer._bytes (Reader._current_part (fst st')) = [] /\
  Reader._raw_reader (fst st')
  = Some (_RawReader.set_position target
            (_RawReader.__init__ (len (b_ "abcdef")))) /\
  Reader._eof (fst st')
  = (target =? Reader._size (fst (fresh (b_ "abcdef") 4))) /\
  snd st' = snd (fresh (b_ "abcdef") 4) /\
  (forall a b : Z,
     snd (Reader.seek b WHENCE_CURRENT
            (snd (Reader.seek a WHENCE_START (fresh (b_ "abcdef") 4))))
     = snd (Reader.seek (a + b) WHENCE_START (fresh (b_ "abcdef") 4))).
Proof.
  assert (H1 : Reader._raw_reader (fst (fresh (b_ "abcdef") 4))
               = Some (_RawReader.__init__ (len (b_ "abcdef"))))
    by reflexivity.
  assert (H2 : In WHENCE_END WHENCE_CHOICES) by (simpl; tauto).
  split; [exact H1 |]. split; [exact H2 |].
  exact (seek_then_tell (-2) WHENCE_END (fresh (b_ "abcdef") 4)
           (_RawReader.__init__ (len (b_ "abcdef"))) H1 H2).
Defined.

(** ** Reading from the buffer *)

(** X4.  A [read(k)] that the buffer can serve, [0 < k <= len(buffer)],
    returns the first [k] buffered bytes and moves the cursor by [k]; it
    asks nothing of the blob and does not touch the raw reader, so it works
    on a closed reader too. *)
Theorem read_served_from_buffer (k : Z) (st : Reader.state) :
  0 < k <= len (ByteBuffer._bytes (Reader._current_part (fst st))) ->
  let B := ByteBuffer._bytes (Reader._current_part (fst st)) in
  exists st',
    Reader.read k st = (Ok (upto k B), st') /\
    len (upto k B) = k /\
    ByteBuffer._bytes (Reader._current_part (fst st')) = from k B /\
    cursor st' = cursor st + k /\
    Reader._raw_reader (fst st') = Reader._raw_reader (fst st) /\
    Reader._eof (fst st') = Reader._eof (fst st) /\
    snd st' = snd st.
Proof.
  intros Hk B. subst B.
  destruct st as [r blob]. destruct r as [h sz rr pos cps [c B] e lt].
  cbn [fst snd Reader._current_part ByteBuffer._bytes] in *.
  assert (E1 : (k =? 0) = false) by (apply Z.eqb_neq; lia).
  assert (E2 : (k <? 0) = false) by (apply Z.ltb_ge; lia).
  assert (E3 : (len B >=? k) = true) by (apply Z.geb_le; lia).
  assert (E4 : (k >=? 0) = true) by (apply Z.geb_le; lia).
  assert (Hl : len (upto k B) = k) by (rewrite len_upto by lia; lia).
  unfold Reader.read. rewrite E1, E2. run. rewrite E3, E4, E2.
  eexists. split; [reflexivity |]. split; [exact Hl |].
  unfold cursor. cbn [fst snd Reader._current_pos]. rewrite Hl.
  repeat split.
Qed.

Lemma read_served_from_buffer_witness :
  0 < 2 <= len (ByteBuffer._bytes
                  (Reader._current_part
                     (fst (perform (Read 1) (fresh (b_ "abcdef") 4))))) /\
  let st := perform (Read 1) (fresh (b_ "abcdef") 4) in
  let B := ByteBuffer._bytes (Reader._current_part (fst st)) in
  exists st',
    Reader.read 2 st = (Ok (upto 2 B), st') /\
    len (upto 2 B) = 2 /\
    ByteBuffer._bytes (Reader._current_part (fst st')) = from 2 B /\
    cursor st' = cursor st + 2 /\
    Reader._raw_reader (fst st') = Reader._raw_reader (fst st) /\
    Reader._eof (fst st') = Reader._eof (fst st) /\
    snd st' = snd st.
Proof.
  assert (H : 0 < 2 <= len (ByteBuffer._bytes
                              (Reader._current_part
                                 (fst (perform (Read 1)
                                         (fresh (b_ "abcdef") 4))))))
    by (vm_compute; split; [reflexivity | discriminate]).
  split; [exact H |].
  exact (read_served_from_buffer 2 (perform (Read 1) (fresh (b_ "abcdef") 4)) H).
Defined.

(** ** Termination *)

(** [m] returns or raises in every state: no loop in it outlasts its fuel. *)
Definition ends {S A} (m : M S A) : Prop :=
  forall s, fst (m s) <> OutOfFuel.

Lemma ends_ret S A (a : A) : ends (@ret S A a).
Proof. intros s. discriminate. Qed.

Lemma ends_raise S A (e : exn) : ends (@raise S A e).
Proof. intros s. discriminate. Qed.

Lemma ends_bind S A B (m : M S A) (k : A -> M S B) :
  ends m -> (forall a, ends (k a)) -> ends (bind m k).
Proof.
  intros Hm Hk s. specialize (Hm s). unfold bind.
  destruct (m s) as [[a | e |] s']; simpl in *.
  - apply Hk.
  - discriminate.
  - contradiction.
Qed.

Lemma ends_self : ends Reader.self.
Proof. intros [r blob]. discriminate. Qed.

Lemma ends_update f : ends (Reader.update f).
Proof. intros [r blob]. discriminate. Qed.

Lemma ends_read_from_buffer size : ends (Reader._read_from_buffer size).
Proof.
  intros [r blob]. destruct r as [h sz rr pos cps [c B] e lt].
  run. destruct (size >=? 0); destruct (_ <? 0); discriminate.
Qed.

(** One fill of the buffer, in any state: it returns the number of bytes
    it appended and leaves the flag alone, or it raises. *)
Lemma fill_current_part_cases (st : Reader.state) :
  match Reader.fill_current_part st with
  | (Ok n, st') =>
      0 <= n /\
      len (ByteBuffer._bytes (Reader._current_part (fst st')))
      = len (ByteBuffer._bytes (Reader._current_part (fst st))) + n /\
      Reader._eof (fst st') = Reader._eof (fst st)
  | (Raise _, _) => True
  | (OutOfFuel, _) => False
  end.
Proof.
  destruct st as [r blob]. destruct r as [h sz rr pos cps [c B] e lt].
  destruct blob as [ct sp uf log]. destruct rr as [[rs rp] |].
  - run. destruct (rp >=? rs).
    + cbn. rewrite len_app. change (len []) with 0. repeat split; lia.
    + destruct (rp =? rs).
      * cbn. rewrite len_app. change (len []) with 0. repeat split; lia.
      * destruct (c =? -1); destruct (rp <? 0); cbn; try exact I;
          rewrite len_app;
          match goal with
          | |- 0 <= len ?d /\ _ => pose proof (len_nonneg d)
          end; repeat split; lia.
  - run. exact I.
Qed.

Lemma ends_with_raw_read n : ends (Reader.with_raw_reader (_RawReader.read n)).
Proof.
  intros [r blob]. destruct r as [h sz rr pos cps [c B] e lt].
  destruct blob as [ct sp uf log]. destruct rr as [[rs rp] |].
  - run. destruct (rp >=? rs); [discriminate |].
    destruct (rp =? rs); [discriminate |].
    destruct (n =? -1); destruct (rp <? 0); discriminate.
  - run. discriminate.
Qed.

Lemma fill_loop_unfold_any fuel size (st : Reader.state) :
  Reader._fill_buffer_loop fuel size st
  = if (len (ByteBuffer._bytes (Reader._current_part (fst st))) <? size)
       && negb (Reader._eof (fst st))
    then match fuel with
         | O => (OutOfFuel, st)
         | S fuel' =>
             (bytes_read <- Reader.fill_current_part ;;
              (if bytes_read =? 0 then Reader.update (Reader.set_eof true)
               else ret tt) ;;
              Reader._fill_buffer_loop fuel' size) st
         end
    else (Ok tt, st).
Proof.
  destruct st as [r blob].
  destruct fuel; cbn [Reader._fill_buffer_loop]; unfold bind at 1;
    cbn [Reader.self on_fst get fst]; destruct (_ && _); reflexivity.
Qed.

(** With fuel for the missing bytes, or at the end of the stream, the loop
    of [_fill_buffer] ends; when it returns, the buffer is long enough or
    the end-of-stream flag is set. *)
Lemma fill_loop_ends fuel : forall size (st : Reader.state),
  (Z.to_nat
     (size - len (ByteBuffer._bytes (Reader._current_part (fst st))))
   <= fuel)%nat \/ Reader._eof (fst st) = true ->
  match Reader._fill_buffer_loop fuel size st with
  | (Ok _, st') =>
      size <= len (ByteBuffer._bytes (Reader._current_part (fst st'))) \/
      Reader._eof (fst st') = true
  | (Raise _, _) => True
  | (OutOfFuel, _) => False
  end.
Proof.
  induction fuel as [| fuel IH]; intros size st Hfuel;
    rewrite fill_loop_unfold_any;
    destruct (_ && _) eqn:Hc;
    try (apply andb_false_iff in Hc; destruct Hc as [Hc | Hc];
         [ left; apply Z.ltb_ge in Hc; exact Hc
         | right; destruct (Reader._eof (fst st)); [reflexivity | discriminate] ]).
  - apply andb_true_iff in Hc. destruct Hc as [Hlt He]. apply Z.ltb_lt in Hlt.
    destruct Hfuel as [Hfuel | Hfuel]; [lia |].
    rewrite Hfuel in He. discriminate.
  - apply andb_true_iff in Hc. destruct Hc as [Hlt He]. apply Z.ltb_lt in Hlt.
    destruct (Reader._eof (fst st)) eqn:Heof; [discriminate |].
    destruct Hfuel as [Hfuel | Hfuel]; [| discriminate].
    pose proof (fill_current_part_cases st) as Hfill. unfold bind at 1.
    destruct (Reader.fill_current_part st) as [[n | x |] st1];
      [| exact I | exact Hfill].
    destruct Hfill as (Hn & Hlen & He1).
    unfold bind at 1. destruct (n =? 0) eqn:Hz.
    + destruct st1 as [r1 blob1]. apply (IH size (Reader.set_eof true r1, blob1)).
      right. reflexivity.
    + apply Z.eqb_neq in Hz. apply (IH size st1). left. lia.
Qed.

(** X5.  [_fill_buffer], and with it [read], [read1] and [readinto], returns
    or raises in every state of the reader and for every argument: the
    loop of [_fill_buffer] needs no more turns than there are bytes missing
    from the buffer.  When [_fill_buffer(size)] returns, the buffer holds
    the size asked for (the chunk size, for a negative [size]) or the
    end-of-stream flag is set. *)
Theorem reads_terminate (size : Z) (st : Reader.state) :
  fst (Reader._fill_buffer size st) <> OutOfFuel /\
  (forall st', Reader._fill_buffer size st = (Ok tt, st') ->
     (if size >=? 0 then size else chunk_size_of st)
     <= len (ByteBuffer._bytes (Reader._current_part (fst st'))) \/
     Reader._eof (fst st') = true) /\
  fst (Reader.read size st) <> OutOfFuel /\
  fst (Reader.read1 size st) <> OutOfFuel /\
  (forall b : bytes, fst (Reader.readinto b st) <> OutOfFuel).
Proof.
  assert (Hfill : forall n s,
            match Reader._fill_buffer n s with
            | (Ok _, s') =>
                (if n >=? 0 then n else chunk_size_of s)
                <= len (ByteBuffer._bytes (Reader._current_part (fst s'))) \/
                Reader._eof (fst s') = true
            | (Raise _, _) => True
            | (OutOfFuel, _) => False
            end).
  { intros n [r blob].
    change (Reader._fill_buffer n (r, blob))
      with (Reader._fill_buffer_loop
              (Z.to_nat ((if n >=? 0 then n else chunk_size_of (r, blob))
                         - len (ByteBuffer._bytes (Reader._current_part r))))
              (if n >=? 0 then n else chunk_size_of (r, blob)) (r, blob)).
    apply fill_loop_ends. left. apply Nat.le_refl. }
  assert (Hends : forall n, ends (Reader._fill_buffer n)).
  { intros n s. specialize (Hfill n s).
    destruct (Reader._fill_buffer n s) as [[u | x |] s'];
      [discriminate | discriminate | contradiction]. }
  assert (Hread : forall n, ends (Reader.read n)).
  { intros n. unfold Reader.read.
    destruct (n =? 0); [apply ends_ret |]. destruct (n <? 0).
    - apply ends_bind; [apply ends_self | intros r0].
      apply ends_bind; [apply ends_update | intros _].
      apply ends_bind; [apply ends_read_from_buffer | intros buffered].
      apply ends_bind; [apply ends_with_raw_read | intros remote].
      apply ends_ret.
    - apply ends_bind; [apply ends_self | intros r0].
      destruct (_ >=? n); [apply ends_read_from_buffer |].
      destruct (Reader._eof r0); [apply ends_read_from_buffer |].
      apply ends_bind; [apply Hends | intros _].
      apply ends_read_from_buffer. }
  split; [apply Hends |]. split.
  - intros st' Heq. specialize (Hfill size st). rewrite Heq in Hfill.
    exact Hfill.
  - split; [apply Hread |]. split; [apply Hread |].
    intros b. unfold Reader.readinto.
    apply ends_bind; [apply Hread | intros data].
    destruct data; apply ends_ret.
Qed.

Lemma reads_terminate_witness :
  Reader._fill_buffer 3 (fresh (b_ "abcdef") 4)
  = (Ok tt, snd (Reader._fill_buffer 3 (fresh (b_ "abcdef") 4))) /\
  (3 <= len (ByteBuffer._bytes (Reader._current_part
               (fst (snd (Reader._fill_buffer 3 (fresh (b_ "abcdef") 4))))))
   \/ Reader._eof (fst (snd (Reader._fill_buffer 3 (fresh (b_ "abcdef") 4))))
      = true) /\
  fst (Reader.read 3 (fresh (b_ "abcdef") 4)) <> OutOfFuel.
Proof.
  assert (H : Reader._fill_buffer 3 (fresh (b_ "abcdef") 4)
              = (Ok tt, snd (Reader._fill_buffer 3 (fresh (b_ "abcdef") 4))))
    by (vm_compute; reflexivity).
  split; [exact H |].
  destruct (reads_terminate 3 (fresh (b_ "abcdef") 4))
    as (_ & Hpost & Hread & _).
  split; [exact (Hpost _ H) | exact Hread].
Defined.

(** X6.  With a chunk size that is not positive, [readline] on a reader
    whose buffer is empty and whose end-of-stream flag is not set never
    returns when the terminator is not empty: [_fill_buffer()] then fetches
    nothing, and however many turns the loop is given it wants one more. *)
Theorem readline_diverges_without_chunk (fuel : nat) (st : Reader.state) :
  chunk_size_of st <= 0 ->
  Reader._eof (fst st) = false ->
  ByteBuffer._bytes (Reader._current_part (fst st)) = [] ->
  Reader._line_terminator (fst st) <> [] ->
  fst (Reader.readline fuel (-1) st) = OutOfFuel.
Proof.
  intros Hchunk Heof Hbuf Hterm.
  destruct st as [r blob]. destruct r as [h sz rr pos cps [c B] e lt].
  unfold chunk_size_of in Hchunk. simpl in Hchunk, Heof, Hbuf, Hterm.
  subst e B. unfold Reader.readline. change (negb (-1 =? -1)) with false.
  cbv iota.
  assert (Hidx : index lt [] = None) by (destruct lt; [contradiction | reflexivity]).
  assert (Hc : (0 <? c) = false) by (apply Z.ltb_ge; lia).
  assert (H : forall fuel q the_line,
            fst (Reader.readline_loop fuel the_line
                   ({| Reader._blob := h; Reader._size := sz;
                       Reader._raw_reader := rr; Reader._current_pos := q;
                       Reader._current_part_size := cps;
                       Reader._current_part :=
                         {| ByteBuffer._chunk_size := c;
                            ByteBuffer._bytes := [] |};
                       Reader._eof := false;
                       Reader._line_terminator := lt |}, blob))
            = OutOfFuel).
  { clear fuel.
    assert (Hdrain : forall q,
              Reader._read_from_buffer (-1)
                ({| Reader._blob := h; Reader._size := sz;
                    Reader._raw_reader := rr; Reader._current_pos := q;
                    Reader._current_part_size := cps;
                    Reader._current_part :=
                      {| ByteBuffer._chunk_size := c;
                         ByteBuffer._bytes := [] |};
                    Reader._eof := false;
                    Reader._line_terminator := lt |}, blob)
              = (Ok [],
                 ({| Reader._blob := h; Reader._size := sz;
                     Reader._raw_reader := rr; Reader._current_pos := q + 0;
                     Reader._current_part_size := cps;
                     Reader._current_part :=
                       {| ByteBuffer._chunk_size := c;
                          ByteBuffer._bytes := [] |};
                     Reader._eof := false;
                     Reader._line_terminator := lt |}, blob)))
      by reflexivity.
    assert (Hfill : forall q,
              Reader._fill_buffer (-1)
                ({| Reader._blob := h; Reader._size := sz;
                    Reader._raw_reader := rr; Reader._current_pos := q;
                    Reader._current_part_size := cps;
                    Reader._current_part :=
                      {| ByteBuffer._chunk_size := c;
                         ByteBuffer._bytes := [] |};
                    Reader._eof := false;
                    Reader._line_terminator := lt |}, blob)
              = (Ok tt,
                 ({| Reader._blob := h; Reader._size := sz;
                     Reader._raw_reader := rr; Reader._current_pos := q;
                     Reader._current_part_size := cps;
                     Reader._current_part :=
                       {| ByteBuffer._chunk_size := c;
                          ByteBuffer._bytes := [] |};
                     Reader._eof := false;
                     Reader._line_terminator := lt |}, blob))).
    { intros q.
      match goal with
      | |- Reader._fill_buffer _ ?s = _ =>
          change (Reader._fill_buffer (-1) s)
            with (Reader._fill_buffer_loop (Z.to_nat (c - 0)) c s)
      end.
      rewrite fill_loop_unfold_any.
      cbn [fst Reader._current_part ByteBuffer._bytes Reader._eof].
      change (len []) with 0. rewrite Hc. reflexivity. }
    induction fuel as [| fuel IH]; intros q the_line; [reflexivity |].
    cbn [Reader.readline_loop]. unfold bind at 1.
    cbn [Reader.self on_fst get fst snd Reader._eof Reader._current_part
         ByteBuffer.__len__ ByteBuffer._bytes ByteBuffer.peek
         Reader._line_terminator andb negb].
    rewrite Hidx. unfold bind at 1. rewrite Hdrain. cbv beta iota.
    unfold bind at 1. rewrite Hfill. cbv beta iota.
    apply IH. }
  apply H.
Qed.

Lemma readline_diverges_without_chunk_witness :
  chunk_size_of (fresh three_lines 0) <= 0 /\
  Reader._eof (fst (fresh three_lines 0)) = false /\
  ByteBuffer._bytes (Reader._current_part (fst (fresh three_lines 0))) = [] /\
  Reader._line_terminator (fst (fresh three_lines 0)) <> [] /\
  fst (Reader.readline 1000 (-1) (fresh three_lines 0)) = OutOfFuel.
Proof.
  assert (H1 : chunk_size_of (fresh three_lines 0) <= 0)
    by (vm_compute; discriminate).
  assert (H2 : Reader._eof (fst (fresh three_lines 0)) = false) by reflexivity.
  assert (H3 : ByteBuffer._bytes
                 (Reader._current_part (fst (fresh three_lines 0))) = [])
    by reflexivity.
  assert (H4 : Reader._line_terminator (fst (fresh three_lines 0)) <> [])
    by discriminate.
  split; [exact H1 |]. split; [exact H2 |]. split; [exact H3 |].
  split; [exact H4 |].
  exact (readline_diverges_without_chunk 1000 (fresh three_lines 0)
           H1 H2 H3 H4).
Defined.

(** ** What a read delivers *)

Lemma upto_app_l (k : Z) (a b : bytes) :
  0 <= k -> k <= len a \/ b = [] ->
  upto k (a ++ b) = upto k a /\ from k (a ++ b) = from k a ++ b.
Proof.
  intros Hk [Hle | ->].
  - unfold upto, from, len in *. rewrite firstn_app, skipn_app.
    replace (Z.to_nat k - List.length a)%nat with 0%nat by lia.
    cbn [firstn skipn]. rewrite app_nil_r. split; reflexivity.
  - rewrite !app_nil_r. split; reflexivity.
Qed.

Lemma len_from_le (p : Z) (b : bytes) : len (from p b) <= len b.
Proof. unfold from, len. rewrite length_skipn. lia. Qed.

Lemma pending_running r N blob p B e pos log :
  pending (running r N blob p B e pos log) = B ++ from p (contents blob).
Proof. reflexivity. Qed.

Lemma cursor_running r N blob p B e pos log :
  cursor (running r N blob p B e pos log) = pos.
Proof. reflexivity. Qed.

(** A steady reader, written out. *)
Lemma steady_running (C : bytes) (st : Reader.state) :
  steady C st ->
  exists p,
    st = running (fst st) (len C) (snd st) p
           (ByteBuffer._bytes (Reader._current_part (fst st)))
           (Reader._eof (fst st)) (Reader._current_pos (fst st))
           (calls (snd st)) /\
    0 <= p /\ (Reader._eof (fst st) = true -> len C <= p).
Proof.
  intros (Hopen & _ & raw & Hraw & Hp & He).
  destruct (opened_on_running C st Hopen) as (raw' & Hraw' & Hst).
  assert (raw' = raw) by congruence. subst raw'.
  exists (_RawReader._position raw). split; [exact Hst |]. split; assumption.
Qed.

Lemma running_steady (C : bytes) r blob p B e pos log :
  contents blob = C -> Reader._size r = len C ->
  0 < ByteBuffer._chunk_size (Reader._current_part r) ->
  0 <= p -> (e = true -> len C <= p) ->
  steady C (running r (len C) blob p B e pos log).
Proof.
  intros HC Hs Hchunk Hp He. split; [| split].
  - split; [exact HC |]. split; [exact Hs |].
    eexists. split; reflexivity.
  - exact Hchunk.
  - eexists. split; [reflexivity |]. split; assumption.
Qed.

Section Exact.

Variables (r : Reader.t) (N : Z) (blob : BlobClient).

Let C := contents blob.
Let chunk := ByteBuffer._chunk_size (Reader._current_part r).
Local Abbreviation St := (running r N blob).

(** [read(k)] with [k > 0] on a steady reader: the first [k] bytes of
    what is pending, all of it when it is shorter. *)
Lemma read_some_exact k p B e pos log :
  0 < k -> 0 <= p -> N = len C -> chunk <> 0 -> (e = true -> N <= p) ->
  exists p' B' e' log',
    Reader.read k (St p B e pos log)
    = (Ok (upto k (B ++ from p C)),
       St p' B' e' (pos + len (upto k (B ++ from p C))) log') /\
    0 <= p' /\
    B' ++ from p' C = from k (B ++ from p C) /\
    (e' = true -> N <= p').
Proof.
  intros Hk Hp HN Hchunk Heof. unfold Reader.read.
  assert (E1 : (k =? 0) = false) by (apply Z.eqb_neq; lia).
  assert (E2 : (k <? 0) = false) by (apply Z.ltb_ge; lia).
  rewrite E1, E2.
  unfold bind at 1. rewrite self_running. cbv beta iota.
  change (ByteBuffer.__len__ (Reader._current_part (fst (St p B e pos log))))
    with (len B).
  change (Reader._eof (fst (St p B e pos log))) with e.
  destruct (len B >=? k) eqn:Hlen.
  - apply Z.geb_le in Hlen.
    destruct (upto_app_l k B (from p C)) as [Hu Hf]; [lia | left; lia |].
    rewrite read_from_buffer_some by lia. rewrite Hu, Hf.
    exists p, (from k B), e, log. repeat split; assumption.
  - rewrite Z.geb_leb in Hlen. apply Z.leb_gt in Hlen.
    destruct e.
    + specialize (Heof eq_refl).
      rewrite read_from_buffer_all by lia.
      rewrite (from_all p C) by lia. rewrite app_nil_r.
      rewrite upto_all, from_all by lia.
      exists p, [], true, log. split; [reflexivity |].
      split; [exact Hp |]. split; [| intros _; exact Heof].
      apply from_all. lia.
    + unfold bind at 1. rewrite fill_buffer_unfold.
      assert (E3 : (k >=? 0) = true) by (apply Z.geb_le; lia).
      rewrite E3.
      destruct (fill_loop_spec r N blob (Z.to_nat (k - len B)) k p B false
                  pos log)
        as (p1 & B1 & e1 & log1 & Heq & Hp1 & Hpend & Hstop & _ & Hend);
        [exact Hp | exact HN | lia |].
      fold C chunk in Hpend, Hend. rewrite Heq. cbv beta iota.
      rewrite read_from_buffer_some by lia. rewrite <- Hpend.
      assert (Hend1 : e1 = true -> N <= p1)
        by (intros H; apply Hend; [exact Hchunk | reflexivity | exact H]).
      destruct (upto_app_l k B1 (from p1 C)) as [Hu Hf]; [lia | |].
      { destruct Hstop as [He1 | Hlong]; [| left; exact Hlong].
        right. apply from_all. specialize (Hend1 He1). lia. }
      rewrite Hu, Hf.
      exists p1, (from k B1), e1, log1. repeat split; assumption.
Qed.

End Exact.

(** [read(k)] on a steady reader, for [0 < k]: the result, what is left
    pending, the cursor and the state reached. *)
Lemma read_steady_spec (C : bytes) (k : Z) (st : Reader.state) :
  steady C st -> 0 < k ->
  exists st',
    Reader.read k st = (Ok (upto k (pending st)), st') /\
    pending st' = from k (pending st) /\
    cursor st' = cursor st + len (upto k (pending st)) /\
    len (upto k (pending st)) = Z.min k (len (pending st)) /\
    steady C st'.
Proof.
  intros Hsteady Hk.
  destruct (steady_running C st Hsteady) as (p & Hst & Hp & Heof).
  destruct Hsteady as ((HC & Hsize & _) & Hchunk & _).
  unfold chunk_size_of in Hchunk.
  set (r := fst st) in *. set (blob := snd st) in *.
  rewrite Hst. clear Hst. rewrite pending_running, cursor_running.
  destruct (read_some_exact r (len C) blob k p
              (ByteBuffer._bytes (Reader._current_part r)) (Reader._eof r)
              (Reader._current_pos r) (calls blob))
    as (p' & B' & e' & log' & Heq & Hp' & Hpend & Heof');
    [lia | exact Hp | congruence | lia | exact Heof |].
  eexists. split; [exact Heq |].
  rewrite pending_running, cursor_running.
  split; [exact Hpend |]. split; [reflexivity |].
  split; [apply len_upto; lia |].
  apply running_steady; assumption.
Qed.

(** X7.  On a steady reader over [C], [read(k)] with [k > 0] returns the
    first [k] bytes of what is pending (all of it when fewer are left: a
    short read), what is pending afterwards is the rest, the cursor has
    moved by the number of bytes returned, and the reader is steady again. *)
Theorem read_delivers_next_bytes (C : bytes) (k : Z) (st : Reader.state) :
  steady C st -> 0 < k ->
  exists st',
    Reader.read k st = (Ok (upto k (pending st)), st') /\
    pending st' = from k (pending st) /\
    cursor st' = cursor st + len (upto k (pending st)) /\
    len (upto k (pending st)) = Z.min k (len (pending st)) /\
    steady C st'.
Proof. exact (read_steady_spec C k st). Qed.

Lemma fresh_steady (C : bytes) (buffer_size : Z) :
  0 < buffer_size -> steady C (fresh C buffer_size).
Proof.
  intros H. split; [| split].
  - split; [reflexivity |]. split; [reflexivity |].
    eexists. split; reflexivity.
  - exact H.
  - eexists. split; [reflexivity |]. split; [cbn; lia |]. discriminate.
Qed.

Lemma read_delivers_next_bytes_witness :
  steady (b_ "abcdef") (fresh (b_ "abcdef") 4) /\ 0 < 5 /\
  exists st',
    Reader.read 5 (fresh (b_ "abcdef") 4)
    = (Ok (upto 5 (pending (fresh (b_ "abcdef") 4))), st') /\
    pending st' = from 5 (pending (fresh (b_ "abcdef") 4)) /\
    cursor st'
    = cursor (fresh (b_ "abcdef") 4)
      + len (upto 5 (pending (fresh (b_ "abcdef") 4))) /\
    len (upto 5 (pending (fresh (b_ "abcdef") 4)))
    = Z.min 5 (len (pending (fresh (b_ "abcdef") 4))) /\
    steady (b_ "abcdef") st'.
Proof.
  assert (H1 : steady (b_ "abcdef") (fresh (b_ "abcdef") 4)).
  { split; [| split].
    - split; [reflexivity |]. split; [reflexivity |].
      eexists. split; reflexivity.
    - reflexivity.
    - eexists. split; [reflexivity |]. split; [cbn; lia |]. discriminate. }
  assert (H2 : 0 < 5) by lia.
  split; [exact H1 |]. split; [exact H2 |].
  exact (read_delivers_next_bytes (b_ "abcdef") 5 (fresh (b_ "abcdef") 4) H1 H2).
Defined.

(** ** What a line read delivers *)

Lemma upto_succ_cons (n : Z) (y : byte) (s : bytes) :
  0 <= n -> upto (Z.succ n) (y :: s) = y :: upto n s.
Proof.
  intros H. unfold upto. rewrite Z2Nat.inj_succ by exact H. reflexivity.
Qed.

(** Where [index] finds the terminator byte, the first line ends. *)
Lemma index_found (x : byte) (B : bytes) : forall i,
  index [x] B = Some i ->
  0 <= i /\ upto (i + 1) B = first_line x B /\
  forall R, first_line x (B ++ R) = first_line x B.
Proof.
  induction B as [| y B IH]; intros i Hi.
  - discriminate.
  - cbn [index startswith] in Hi. rewrite andb_true_r in Hi.
    cbn [first_line app].
    destruct (Byte.eqb x y).
    + injection Hi as <-. split; [lia |]. split; [reflexivity |].
      intros R. reflexivity.
    + destruct (index [x] B) as [j |]; [| discriminate].
      injection Hi as <-. destruct (IH j eq_refl) as (Hj & Hu & Hr).
      split; [lia |]. split.
      * replace (Z.succ j + 1) with (Z.succ (j + 1)) by lia.
        rewrite upto_succ_cons by lia. rewrite Hu. reflexivity.
      * intros R. rewrite Hr. reflexivity.
Qed.

(** Where it finds none, the first line goes on past the buffer. *)
Lemma index_missing (x : byte) (B : bytes) :
  index [x] B = None ->
  forall R, first_line x (B ++ R) = B ++ first_line x R.
Proof.
  induction B as [| y B IH]; intros Hi R.
  - reflexivity.
  - cbn [index startswith] in Hi. rewrite andb_true_r in Hi.
    cbn [first_line app].
    destruct (Byte.eqb x y); [discriminate |].
    destruct (index [x] B) as [j |]; [discriminate |].
    rewrite IH by reflexivity. reflexivity.
Qed.


(** The turns the loop of [readline] needs from a steady state. *)
Definition turns_needed (e : bool) (B rest : bytes) : nat :=
  if e then (if len B =? 0 then 0 else 1)
  else Z.to_nat (len rest) + 2.

Section ExactLines.

Variables (r : Reader.t) (N : Z) (blob : BlobClient) (x : byte).

Let C := contents blob.
Let chunk := ByteBuffer._chunk_size (Reader._current_part r).
Local Abbreviation St := (running r N blob).

Hypothesis HN : N = len C.
Hypothesis Hchunk : 0 < chunk.
Hypothesis Hterm : Reader._line_terminator r = [x].

(** The loop of [readline] on a steady reader: it adds the first line of
    what is pending to the line it has. *)
Lemma readline_loop_exact fuel : forall the_line p B e pos log,
  0 <= p -> (e = true -> N <= p) ->
  (turns_needed e B (from p C) <= fuel)%nat ->
  exists p' B' e' pos' log',
    Reader.readline_loop fuel the_line (St p B e pos log)
    = (Ok (the_line ++ first_line x (B ++ from p C)),
       St p' B' e' pos' log') /\
    pos' = pos + len (first_line x (B ++ from p C)) /\
    0 <= p' /\
    first_line x (B ++ from p C) ++ B' ++ from p' C = B ++ from p C /\
    (e' = true -> N <= p').
Proof.
  induction fuel as [| fuel IH]; intros the_line p B e pos log Hp Heof Hfuel.
  all: destruct (negb (e && (len B =? 0))) eqn:Hc.
  all: try (
    (* the loop is over: end of stream, nothing buffered *)
    apply negb_false_iff, andb_true_iff in Hc; destruct Hc as [He HB];
    apply Z.eqb_eq, len_nil_inv in HB; subst e B;
    specialize (Heof eq_refl);
    rewrite readline_loop_done, (from_all p C) by lia;
    cbn [app first_line]; rewrite app_nil_r;
    exists p, [], true, pos, log;
    split; [reflexivity |]; split; [change (len []) with 0; lia |];
    split; [exact Hp |]; split; [rewrite from_all by lia; reflexivity |];
    intros _; exact Heof).
  - (* no fuel, yet a turn is needed *)
    exfalso. unfold turns_needed in Hfuel.
    destruct e; [| lia]. cbn [andb] in Hc.
    destruct (len B =? 0); [discriminate | lia].
  - destruct (index [x] B) as [i |] eqn:Hi.
    + destruct (index_found x B i Hi) as (H0 & Hu & Hr).
      rewrite (readline_loop_found r N blob fuel the_line i p B e pos log Hc)
        by (try rewrite Hterm; assumption).
      rewrite Hu, Hr.
      exists p, (from (i + 1) B), e, (pos + len (first_line x B)), log.
      split; [reflexivity |]. split; [reflexivity |]. split; [exact Hp |].
      split; [| exact Heof].
      rewrite <- Hu. rewrite app_assoc, upto_from. reflexivity.
    + rewrite (readline_loop_more r N blob fuel the_line p B e pos log Hc)
        by (rewrite Hterm; exact Hi).
      rewrite (index_missing x B Hi). unfold bind at 1.
      destruct e.
      * specialize (Heof eq_refl).
        rewrite fill_buffer_at_eof. cbv beta iota.
        rewrite readline_loop_done. rewrite (from_all p C) by lia.
        cbn [first_line]. rewrite app_nil_r.
        exists p, [], true, (pos + len B), log.
        split; [reflexivity |]. split; [reflexivity |]. split; [exact Hp |].
        split; [rewrite from_all by lia; rewrite !app_nil_r; reflexivity |].
        intros _. exact Heof.
      * rewrite fill_buffer_unfold. change (-1 >=? 0) with false. cbv iota.
        fold chunk.
        destruct (fill_loop_spec r N blob (Z.to_nat (chunk - len []))
                    chunk p [] false (pos + len B) log)
          as (p1 & B1 & e1 & log1 & Heq & Hp1 & Hpend & Hstop & _ & Hend);
          [exact Hp | exact HN | lia |].
        fold C chunk in Hpend, Hend. cbn [app] in Hpend.
        rewrite Heq. cbv beta iota.
        assert (Hend1 : e1 = true -> N <= p1)
          by (intros H; apply Hend; [lia | reflexivity | exact H]).
        destruct (IH (the_line ++ B) p1 B1 e1 (pos + len B) log1)
          as (p' & B' & e' & pos' & log' & Hrun & Hpos & Hp' & Hcons & He');
          [exact Hp1 | exact Hend1 | |].
        { unfold turns_needed in *.
          assert (Hlens : len B1 + len (from p1 C) = len (from p C))
            by (rewrite <- Hpend, len_app; reflexivity).
          pose proof (len_nonneg B1). pose proof (len_nonneg (from p1 C)).
          destruct e1.
          - destruct (len B1 =? 0); lia.
          - destruct Hstop as [H' | H']; [discriminate | lia]. }
        rewrite Hpend in Hrun, Hpos, Hcons.
        exists p', B', e', pos', log'.
        split; [rewrite Hrun; rewrite <- app_assoc; reflexivity |].
        split; [rewrite Hpos, len_app; lia |]. split; [exact Hp' |].
        split; [| exact He'].
        rewrite <- app_assoc. rewrite Hcons. reflexivity.
Qed.

End ExactLines.

(** [readline(-1)] on a steady reader with a one-byte terminator: the
    result, what is left pending, the cursor and the state reached. *)
Lemma readline_steady_spec (C : bytes) (x : byte) (fuel : nat)
    (st : Reader.state) :
  steady C st ->
  Reader._line_terminator (fst st) = [x] ->
  (Z.to_nat (len C) + 2 <= fuel)%nat ->
  exists st',
    Reader.readline fuel (-1) st = (Ok (first_line x (pending st)), st') /\
    pending st = first_line x (pending st) ++ pending st' /\
    cursor st' = cursor st + len (first_line x (pending st)) /\
    steady C st'.
Proof.
  intros Hsteady Hterm Hfuel.
  destruct (steady_running C st Hsteady) as (p & Hst & Hp & Heof).
  destruct Hsteady as ((HC & Hsize & _) & Hchunk & _).
  unfold chunk_size_of in Hchunk.
  set (r := fst st) in *. set (blob := snd st) in *.
  rewrite Hst. clear Hst. rewrite pending_running, cursor_running.
  unfold Reader.readline. change (negb (-1 =? -1)) with false. cbv iota.
  destruct (readline_loop_exact r (len C) blob x (eq_sym (f_equal len HC))
              Hchunk Hterm fuel [] p
              (ByteBuffer._bytes (Reader._current_part r)) (Reader._eof r)
              (Reader._current_pos r) (calls blob))
    as (p' & B' & e' & pos' & log' & Hrun & Hpos & Hp' & Hcons & He');
    [exact Hp | exact Heof | |].
  { unfold turns_needed.
    assert (Hle : len (from p (contents blob)) <= len C)
      by (rewrite <- HC; apply len_from_le).
    pose proof (len_nonneg (from p (contents blob))).
    destruct (Reader._eof r); [destruct (_ =? 0); lia | lia]. }
  cbn [app] in Hrun. eexists. split; [exact Hrun |].
  rewrite pending_running, cursor_running.
  split; [symmetry; exact Hcons |]. split; [exact Hpos |].
  apply running_steady; assumption.
Qed.

(** X8.  On a steady reader over [C] whose line terminator is the single
    byte [x], [readline(-1)] returns the first line of what is pending: the
    bytes up to and with the first [x], or all that is left when no [x]
    follows.  What is pending afterwards is the rest, the cursor has moved
    by the length of the line, and the reader is steady again.  [len(C) + 2]
    turns of the loop are enough. *)
Theorem readline_returns_next_line (C : bytes) (x : byte) (fuel : nat)
    (st : Reader.state) :
  steady C st ->
  Reader._line_terminator (fst st) = [x] ->
  (Z.to_nat (len C) + 2 <= fuel)%nat ->
  exists st',
    Reader.readline fuel (-1) st = (Ok (first_line x (pending st)), st') /\
    pending st = first_line x (pending st) ++ pending st' /\
    cursor st' = cursor st + len (first_line x (pending st)) /\
    steady C st'.
Proof. exact (readline_steady_spec C x fuel st). Qed.

Lemma readline_returns_next_line_witness :
  steady three_lines (fresh three_lines 4) /\
  Reader._line_terminator (fst (fresh three_lines 4)) = [x0a] /\
  (Z.to_nat (len three_lines) + 2 <= 10)%nat /\
  exists st',
    Reader.readline 10 (-1) (fresh three_lines 4)
    = (Ok (first_line x0a (pending (fresh three_lines 4))), st') /\
    pending (fresh three_lines 4)
    = first_line x0a (pending (fresh three_lines 4)) ++ pending st' /\
    cursor st'
    = cursor (fresh three_lines 4)
      + len (first_line x0a (pending (fresh three_lines 4))) /\
    steady three_lines st'.
Proof.
  assert (H1 : steady three_lines (fresh three_lines 4)).
  { split; [| split].
    - split; [reflexivity |]. split; [reflexivity |].
      eexists. split; reflexivity.
    - reflexivity.
    - eexists. split; [reflexivity |]. split; [cbn; lia |]. discriminate. }
  assert (H2 : Reader._line_terminator (fst (fresh three_lines 4)) = [x0a])
    by reflexivity.
  assert (H3 : (Z.to_nat (len three_lines) + 2 <= 10)%nat)
    by (vm_compute; repeat constructor).
  split; [exact H1 |]. split; [exact H2 |]. split; [exact H3 |].
  exact (readline_returns_next_line three_lines x0a 10 (fresh three_lines 4)
           H1 H2 H3).
Defined.

(** ** Reads follow the cursor *)

(** What is pending is the blob from the cursor on. *)
Definition in_step (C : bytes) (st : Reader.state) : Prop :=
  0 <= cursor st /\ pending st = from (cursor st) C.

Lemma from_after_prefix (c : Z) (d rest C : bytes) :
  0 <= c -> from c C = d ++ rest -> from (c + len d) C = rest.
Proof.
  intros Hc H. rewrite from_from by exact Hc. rewrite H.
  rewrite skipn_app, skipn_all, Nat.sub_diag. reflexivity.
Qed.

(** [read(k)] and [readline(-1)] on a steady reader that is in step with
    its cursor. *)
Lemma reads_in_step_spec (C : bytes) (st : Reader.state) :
  steady C st -> in_step C st ->
  (forall k : Z,
     0 < k ->
     exists st',
       Reader.read k st = (Ok (upto k (from (cursor st) C)), st') /\
       cursor st' = cursor st + len (upto k (from (cursor st) C)) /\
       steady C st' /\ in_step C st') /\
  (forall (x : byte) (fuel : nat),
     Reader._line_terminator (fst st) = [x] ->
     (Z.to_nat (len C) + 2 <= fuel)%nat ->
     exists st',
       Reader.readline fuel (-1) st
       = (Ok (first_line x (from (cursor st) C)), st') /\
       cursor st' = cursor st + len (first_line x (from (cursor st) C)) /\
       steady C st' /\ in_step C st').
Proof.
  intros Hsteady (Hc & Hpend). split.
  - intros k Hk.
    destruct (read_steady_spec C k st Hsteady Hk)
      as (st' & Hrun & Hp' & Hcur & _ & Hs').
    rewrite Hpend in Hrun, Hp', Hcur.
    exists st'. split; [exact Hrun |]. split; [exact Hcur |].
    split; [exact Hs' |].
    pose proof (len_nonneg (upto k (from (cursor st) C))).
    split; [lia |]. rewrite Hp', Hcur.
    symmetry. apply from_after_prefix; [exact Hc |].
    symmetry. apply upto_from.
  - intros x fuel Hterm Hfuel.
    destruct (readline_steady_spec C x fuel st Hsteady Hterm Hfuel)
      as (st' & Hrun & Hsplit & Hcur & Hs').
    rewrite Hpend in Hrun, Hsplit, Hcur.
    exists st'. split; [exact Hrun |]. split; [exact Hcur |].
    split; [exact Hs' |].
    pose proof (len_nonneg (first_line x (from (cursor st) C))).
    split; [lia |]. rewrite Hcur.
    symmetry. apply from_after_prefix; [exact Hc | exact Hsplit].
Qed.



(** X10.  Random access.  On an open reader over [C] with a positive chunk
    size, in whatever state, an accepted seek to a position [target >= 0]
    leaves the reader steady and in step at [target]; so [seek(o)] followed
    by [read(k)], for [o >= 0] and [k > 0], returns [C[o : o + k]] and
    leaves [tell()] at [o] plus the number of bytes returned. *)
Theorem seek_then_read (C : bytes) (st : Reader.state) :
  opened_on C st -> 0 < chunk_size_of st ->
  (forall offset whence : Z,
     In whence WHENCE_CHOICES ->
     0 <= seek_target offset whence st ->
     steady C (snd (Reader.seek offset whence st)) /\
     in_step C (snd (Reader.seek offset whence st)) /\
     cursor (snd (Reader.seek offset whence st))
     = seek_target offset whence st) /\
  (forall o k : Z,
     0 <= o -> 0 < k ->
     exists st1 st2,
       Reader.seek o WHENCE_START st = (Ok o, st1) /\
       Reader.read k st1 = (Ok (upto k (from o C)), st2) /\
       Reader.tell st2 = (Ok (o + len (upto k (from o C))), st2)).
Proof.
  intros Hopen Hchunk.
  assert (Hseek : forall offset whence : Z,
            In whence WHENCE_CHOICES ->
            0 <= seek_target offset whence st ->
            Reader.seek offset whence st
            = (Ok (seek_target offset whence st),
               snd (Reader.seek offset whence st)) /\
            steady C (snd (Reader.seek offset whence st)) /\
            in_step C (snd (Reader.seek offset whence st)) /\
            cursor (snd (Reader.seek offset whence st))
            = seek_target offset whence st).
  { intros offset whence Hin Htarget.
    destruct (opened_on_running C st Hopen) as (raw & _ & Hst).
    destruct Hopen as (HC & Hsize & _). unfold chunk_size_of in Hchunk.
    assert (Hw : existsb (Z.eqb whence) WHENCE_CHOICES = true).
    { apply existsb_exists. exists whence.
      split; [exact Hin | apply Z.eqb_refl]. }
    set (t := seek_target offset whence st) in *.
    set (r := fst st) in *. set (blob := snd st) in *.
    assert (Heq : Reader.seek offset whence st
                  = (Ok t, running r (len C) blob t []
                             (t =? Reader._size r) t (calls blob))).
    { transitivity
        (Reader.seek offset whence
           (running r (len C) blob (_RawReader._position raw)
              (ByteBuffer._bytes (Reader._current_part r)) (Reader._eof r)
              (Reader._current_pos r) (calls blob))).
      - f_equal. exact Hst.
      - rewrite seek_spec by exact Hw. reflexivity. }
    rewrite Heq. cbn [snd].
    split; [reflexivity |]. split; [| split; [| reflexivity]].
    - apply running_steady; try assumption.
      intros E. apply Z.eqb_eq in E. lia.
    - split; [exact Htarget |]. rewrite pending_running, cursor_running.
      rewrite HC. reflexivity. }
  split.
  - intros offset whence Hin Htarget.
    destruct (Hseek offset whence Hin Htarget) as (_ & H). exact H.
  - intros o k Ho Hk.
    assert (Hin : In WHENCE_START WHENCE_CHOICES) by (left; reflexivity).
    assert (Ht : seek_target o WHENCE_START st = o) by reflexivity.
    destruct (Hseek o WHENCE_START Hin) as (Heq & Hs & Hi & Hcur);
      [rewrite Ht; exact Ho |].
    rewrite Ht in Heq, Hcur.
    destruct (reads_in_step_spec C _ Hs Hi) as (Hread & _).
    destruct (Hread k Hk) as (st2 & Hrun & Hcur2 & _ & _).
    rewrite Hcur in Hrun, Hcur2.
    eexists _, st2. split; [exact Heq |]. split; [exact Hrun |].
    destruct st2 as [r2 blob2]. unfold cursor in Hcur2. simpl in Hcur2.
    unfold Reader.tell, bind, Reader.self, on_fst, get, ret.
    rewrite Hcur2. reflexivity.
Qed.

Lemma seek_then_read_witness :
  opened_on (b_ "abcdef") (fresh (b_ "abcdef") 4) /\
  0 < chunk_size_of (fresh (b_ "abcdef") 4) /\
  0 <= 2 /\ 0 < 3 /\
  exists st1 st2,
    Reader.seek 2 WHENCE_START (fresh (b_ "abcdef") 4) = (Ok 2, st1) /\
    Reader.read 3 st1 = (Ok (upto 3 (from 2 (b_ "abcdef"))), st2) /\
    Reader.tell st2 = (Ok (2 + len (upto 3 (from 2 (b_ "abcdef")))), st2).
Proof.
  assert (H1 : opened_on (b_ "abcdef") (fresh (b_ "abcdef") 4)).
  { split; [reflexivity |]. split; [reflexivity |].
    eexists. split; reflexivity. }
  assert (H2 : 0 < chunk_size_of (fresh (b_ "abcdef") 4)) by reflexivity.
  assert (H3 : 0 <= 2) by lia.
  assert (H4 : 0 < 3) by lia.
  split; [exact H1 |]. split; [exact H2 |]. split; [exact H3 |].
  split; [exact H4 |].
  exact (proj2 (seek_then_read (b_ "abcdef") (fresh (b_ "abcdef") 4) H1 H2)
           2 3 H3 H4).
Defined.

(** ** Reading into a caller's buffer *)



(** ** After [close] *)

(** X12.  [Reader.close] asks nothing of the blob and closing again changes
    nothing more.  On the closed reader [tell()] still returns the cursor.
    A read with [size < 0] and any accepted seek call a method of the raw
    reader, which is [None], and raise [AttributeError]; the seek has by
    then already moved the cursor to its target.  A read of more bytes than
    are buffered, when the end-of-stream flag is not set, raises
    [TypeError]: [_fill_buffer] hands [None] to the buffer as the source to
    fill from.  The failed read leaves the reader and the blob as they
    were. *)
Theorem reader_after_close (st : Reader.state) :
  let closed := snd (Reader.close st) in
  Reader.close st = (Ok tt, closed) /\
  Reader.close closed = (Ok tt, closed) /\
  snd closed = snd st /\
  Reader.tell closed = (Ok (cursor st), closed) /\
  (forall size : Z,
     size < 0 -> fst (Reader.read size closed) = Raise AttributeError) /\
  (forall k : Z,
     len (ByteBuffer._bytes (Reader._current_part (fst st))) < k ->
     Reader._eof (fst st) = false ->
     Reader.read k closed = (Raise TypeError, closed)) /\
  (forall offset whence : Z,
     In whence WHENCE_CHOICES ->
     fst (Reader.seek offset whence closed) = Raise AttributeError /\
     cursor (snd (Reader.seek offset whence closed))
     = seek_target offset whence st).
Proof.
  destruct st as [r blob]. destruct r as [h sz rr pos cps [c B] e lt].
  cbv zeta.
  change (snd (Reader.close
                 ({| Reader._blob := h; Reader._size := sz;
                     Reader._raw_reader := rr; Reader._current_pos := pos;
                     Reader._current_part_size := cps;
                     Reader._current_part :=
                       {| ByteBuffer._chunk_size := c; ByteBuffer._bytes := B |};
                     Reader._eof := e; Reader._line_terminator := lt |}, blob)))
    with ({| Reader._blob := None; Reader._size := sz;
             Reader._raw_reader := None; Reader._current_pos := pos;
             Reader._current_part_size := cps;
             Reader._current_part :=
               {| ByteBuffer._chunk_size := c; ByteBuffer._bytes := B |};
             Reader._eof := e; Reader._line_terminator := lt |}, blob).
  pose proof (len_nonneg B) as HB.
  assert (EB : (len B <? 0) = false) by (apply Z.ltb_ge; exact HB).
  split; [reflexivity |]. split; [reflexivity |]. split; [reflexivity |].
  split; [reflexivity |]. split; [| split].
  - intros size Hs. unfold Reader.read.
    assert (E1 : (size =? 0) = false) by (apply Z.eqb_neq; lia).
    assert (E2 : (size <? 0) = true) by (apply Z.ltb_lt; lia).
    rewrite E1, E2. run. change (-1 >=? 0) with false. cbv iota.
    rewrite EB. reflexivity.
  - intros k Hk He. cbn [fst Reader._current_part ByteBuffer._bytes
                         Reader._eof] in Hk, He. subst e.
    unfold Reader.read.
    assert (E1 : (k =? 0) = false) by (apply Z.eqb_neq; lia).
    assert (E2 : (k <? 0) = false) by (apply Z.ltb_ge; lia).
    assert (E3 : (len B >=? k) = false)
      by (rewrite Z.geb_leb; apply Z.leb_gt; lia).
    assert (E4 : (k >=? 0) = true) by (apply Z.geb_le; lia).
    assert (E5 : (len B <? k) = true) by (apply Z.ltb_lt; lia).
    rewrite E1, E2. unfold bind at 1.
    cbn [Reader.self on_fst get fst snd Reader._current_part
         ByteBuffer.__len__ ByteBuffer._bytes Reader._eof].
    unfold ByteBuffer.__len__. cbn [ByteBuffer._bytes].
    rewrite E3. unfold bind at 1.
    match goal with
    | |- context [Reader._fill_buffer k ?s] =>
        change (Reader._fill_buffer k s)
          with (Reader._fill_buffer_loop
                  (Z.to_nat ((if k >=? 0 then k else c) - len B))
                  (if k >=? 0 then k else c) s)
    end.
    rewrite E4. rewrite fill_loop_unfold_any.
    cbn [fst Reader._current_part ByteBuffer._bytes Reader._eof].
    rewrite E5. cbn [andb negb].
    destruct (Z.to_nat (k - len B)) eqn:Ef; [lia |].
    reflexivity.
  - intros offset whence Hin.
    assert (Hw : existsb (Z.eqb whence) WHENCE_CHOICES = true).
    { apply existsb_exists. exists whence.
      split; [exact Hin | apply Z.eqb_refl]. }
    unfold Reader.seek. rewrite Hw. split; reflexivity.
Qed.

Lemma reader_after_close_witness :
  -1 < 0 /\
  len (ByteBuffer._bytes (Reader._current_part (fst (fresh (b_ "abcdef") 4))))
  < 3 /\
  Reader._eof (fst (fresh (b_ "abcdef") 4)) = false /\
  In WHENCE_END WHENCE_CHOICES /\
  fst (Reader.read (-1) (snd (Reader.close (fresh (b_ "abcdef") 4))))
  = Raise AttributeError /\
  Reader.read 3 (snd (Reader.close (fresh (b_ "abcdef") 4)))
  = (Raise TypeError, snd (Reader.close (fresh (b_ "abcdef") 4))) /\
  fst (Reader.seek (-2) WHENCE_END (snd (Reader.close (fresh (b_ "abcdef") 4))))
  = Raise AttributeError /\
  cursor (snd (Reader.seek (-2) WHENCE_END
                 (snd (Reader.close (fresh (b_ "abcdef") 4)))))
  = seek_target (-2) WHENCE_END (fresh (b_ "abcdef") 4).
Proof.
  assert (H1 : -1 < 0) by lia.
  assert (H2 : len (ByteBuffer._bytes
                      (Reader._current_part (fst (fresh (b_ "abcdef") 4)))) < 3)
    by (vm_compute; reflexivity).
  assert (H3 : Reader._eof (fst (fresh (b_ "abcdef") 4)) = false)
    by reflexivity.
  assert (H4 : In WHENCE_END WHENCE_CHOICES)
    by (right; right; left; reflexivity).
  split; [exact H1 |]. split; [exact H2 |]. split; [exact H3 |].
  split; [exact H4 |].
  destruct (reader_after_close (fresh (b_ "abcdef") 4))
    as (_ & _ & _ & _ & Hneg & Hbig & Hseek).
  split; [exact (Hneg (-1) H1) |]. split; [exact (Hbig 3 H2 H3) |].
  exact (Hseek (-2) WHENCE_END H4).
Defined.

(** ** What a reader asks of the blob *)

(** A download that starts below [N]. *)
Definition download_below (N : Z) (c : call) : Prop :=
  exists offset length, c = DownloadBlob offset length /\ offset < N.

(** Since the blob was [blob0], it has kept its contents and properties
    and has only received downloads that start below [N], the size any
    raw reader at hand records. *)
Definition quiet (N : Z) (blob0 : BlobClient) (st : Reader.state) : Prop :=
  (forall raw, Reader._raw_reader (fst st) = Some raw ->
               _RawReader._size raw = N) /\
  contents (snd st) = contents blob0 /\
  size_property (snd st) = size_property blob0 /\
  upload_fault (snd st) = upload_fault blob0 /\
  exists new, calls (snd st) = calls blob0 ++ new /\
              Forall (download_below N) new.

Definition stays {A} (N : Z) (blob0 : BlobClient) (m : M Reader.state A) : Prop :=
  forall st, quiet N blob0 st -> quiet N blob0 (snd (m st)).

Section Quiet.

Variables (N : Z) (blob0 : BlobClient).

Lemma quiet_same_remote (st st' : Reader.state) :
  Reader._raw_reader (fst st') = Reader._raw_reader (fst st)
  \/ Reader._raw_reader (fst st') = None ->
  snd st' = snd st ->
  quiet N blob0 st -> quiet N blob0 st'.
Proof.
  intros Hraw Hblob (H1 & H2). unfold quiet. rewrite Hblob.
  split; [| exact H2].
  intros raw Hr. destruct Hraw as [E | E]; rewrite E in Hr;
    [apply H1; exact Hr | discriminate].
Qed.

Lemma stays_ret A (a : A) : stays N blob0 (ret a).
Proof. intros st H. exact H. Qed.

Lemma stays_raise A (e : exn) : stays N blob0 (@raise _ A e).
Proof. intros st H. exact H. Qed.

Lemma stays_out_of_fuel A : stays N blob0 (@out_of_fuel _ A).
Proof. intros st H. exact H. Qed.

Lemma stays_bind A B (m : M Reader.state A) (k : A -> M Reader.state B) :
  stays N blob0 m -> (forall a, stays N blob0 (k a)) ->
  stays N blob0 (bind m k).
Proof.
  intros Hm Hk st H. specialize (Hm st H). unfold bind.
  destruct (m st) as [[a | e |] s']; simpl in *.
  - apply Hk. exact Hm.
  - exact Hm.
  - exact Hm.
Qed.

Lemma stays_self : stays N blob0 Reader.self.
Proof. intros [r blob] H. exact H. Qed.

Lemma stays_update (f : Reader.t -> Reader.t) :
  (forall r, Reader._raw_reader (f r) = Reader._raw_reader r
             \/ Reader._raw_reader (f r) = None) ->
  stays N blob0 (Reader.update f).
Proof.
  intros Hf [r blob] H.
  apply (quiet_same_remote (r, blob)); [apply Hf | reflexivity | exact H].
Qed.

Lemma stays_read_from_buffer size :
  stays N blob0 (Reader._read_from_buffer size).
Proof.
  intros [r blob] H. destruct r as [h sz rr pos cps [c B] e lt].
  match type of H with
  | quiet _ _ ?s => apply (quiet_same_remote s); [| | exact H]
  end; run; destruct (size >=? 0); destruct (_ <? 0);
    try (left; reflexivity); reflexivity.
Qed.

(** A read on the raw reader downloads only from below the recorded size. *)
Lemma stays_raw_read n :
  stays N blob0 (Reader.with_raw_reader (_RawReader.read n)).
Proof.
  intros [r blob] H. destruct r as [h sz rr pos cps [c B] e lt].
  destruct blob as [ct sp uf log]. destruct rr as [[rs rp] |].
  - assert (Hrs : rs = N) by (apply (proj1 H) with (raw := {| _RawReader._size := rs; _RawReader._position := rp |}); reflexivity).
    destruct H as (_ & H2 & H3 & H4 & new & H5 & H6). simpl in H2, H3, H4, H5.
    run. destruct (rp >=? rs) eqn:E1.
    + cbn. repeat split; try assumption.
      * intros raw Hr. injection Hr as <-. exact Hrs.
      * exists new. split; assumption.
    + rewrite Z.geb_leb in E1. apply Z.leb_gt in E1.
      assert (E2 : (rp =? rs) = false) by (apply Z.eqb_neq; lia).
      rewrite E2.
      assert (Hnew : forall l,
                exists new', log ++ [DownloadBlob rp l] = calls blob0 ++ new' /\
                             Forall (download_below N) new').
      { intros l. exists (new ++ [DownloadBlob rp l]). split.
        - rewrite H5, app_assoc. reflexivity.
        - apply Forall_app. split; [exact H6 |].
          constructor; [| constructor]. exists rp, l. split; [reflexivity | lia]. }
      destruct (n =? -1); destruct (rp <? 0); cbn;
        (split; [intros raw Hr; injection Hr as <-; exact Hrs |]);
        repeat (split; [assumption |]); apply Hnew.
  - run. exact H.
Qed.

Lemma stays_raw_seek p :
  stays N blob0 (Reader.with_raw_reader (_RawReader.seek p)).
Proof.
  intros [r blob] H. destruct r as [h sz rr pos cps [c B] e lt].
  destruct rr as [[rs rp] |]; [| exact H].
  destruct H as (H1 & H2). split; [| exact H2].
  intros raw Hr. cbn in Hr. injection Hr as <-.
  apply (H1 {| _RawReader._size := rs; _RawReader._position := rp |}).
  reflexivity.
Qed.

End Quiet.

Ltac stays_step :=
  first
    [ apply stays_ret | apply stays_raise | apply stays_out_of_fuel
    | apply stays_self | apply stays_read_from_buffer
    | apply stays_raw_read | apply stays_raw_seek
    | apply stays_update; intros ?; first [left; reflexivity | right; reflexivity]
    | assumption
    | apply stays_bind; [| intros ?]
    | match goal with
      | |- stays _ _ (if ?b then _ else _) => destruct b
      | |- stays _ _ (match ?x with _ => _ end) => destruct x
      end ].

Lemma stays_fill_current_part N blob0 : stays N blob0 Reader.fill_current_part.
Proof. unfold Reader.fill_current_part, ByteBuffer.fill. repeat stays_step. Qed.

Lemma stays_fill_buffer_loop N blob0 fuel size :
  stays N blob0 (Reader._fill_buffer_loop fuel size).
Proof.
  induction fuel as [| fuel IH]; cbn [Reader._fill_buffer_loop];
    (apply stays_bind; [apply stays_self | intros r]);
    destruct (_ && _); try apply stays_ret; try apply stays_out_of_fuel.
  apply stays_bind; [apply stays_fill_current_part | intros n].
  apply stays_bind; [| intros _; exact IH].
  repeat stays_step.
Qed.

Lemma stays_fill_buffer N blob0 size : stays N blob0 (Reader._fill_buffer size).
Proof.
  unfold Reader._fill_buffer.
  apply stays_bind; [apply stays_self | intros r].
  apply stays_fill_buffer_loop.
Qed.

Lemma stays_read N blob0 size : stays N blob0 (Reader.read size).
Proof.
  unfold Reader.read. destruct (size =? 0); [apply stays_ret |].
  destruct (size <? 0).
  - repeat stays_step.
  - apply stays_bind; [apply stays_self | intros r].
    destruct (_ >=? size); [apply stays_read_from_buffer |].
    destruct (Reader._eof r); [apply stays_read_from_buffer |].
    apply stays_bind; [apply stays_fill_buffer | intros _].
    apply stays_read_from_buffer.
Qed.

Lemma stays_readinto N blob0 b : stays N blob0 (Reader.readinto b).
Proof.
  unfold Reader.readinto.
  apply stays_bind; [apply stays_read | intros data].
  destruct data; apply stays_ret.
Qed.

Lemma stays_readline_loop N blob0 fuel : forall the_line,
  stays N blob0 (Reader.readline_loop fuel the_line).
Proof.
  induction fuel as [| fuel IH]; intros the_line;
    cbn [Reader.readline_loop];
    (apply stays_bind; [apply stays_self | intros r]);
    destruct (negb _); try apply stays_ret; try apply stays_out_of_fuel.
  destruct (index _ _).
  - repeat stays_step.
  - apply stays_bind; [apply stays_read_from_buffer | intros part].
    apply stays_bind; [apply stays_fill_buffer | intros _]. apply IH.
Qed.

Lemma stays_perform N blob0 (o : op) (st : Reader.state) :
  quiet N blob0 st -> quiet N blob0 (perform o st).
Proof.
  intros H. destruct o; unfold perform.
  - revert st H. change (stays N blob0 Reader.close).
    unfold Reader.close. repeat stays_step.
  - destruct st. exact H.
  - destruct st. exact H.
  - destruct st. exact H.
  - revert st H. change (stays N blob0 (Reader.seek offset whence)).
    unfold Reader.seek. repeat stays_step.
  - destruct st. exact H.
  - destruct st. exact H.
  - apply stays_read. exact H.
  - apply stays_read. exact H.
  - apply stays_readinto. exact H.
  - revert st H. change (stays N blob0 (Reader.readline fuel limit)).
    unfold Reader.readline. destruct (negb _); [apply stays_raise |].
    apply stays_readline_loop.
Qed.

(** X13.  Whatever operations are performed on a reader, in whatever
    state, the blob keeps its contents and receives nothing but downloads,
    each starting below the size the raw reader records: the reader never
    uploads, never looks the properties up again, and never asks for a
    range that starts at or past the recorded size.  A closed reader asks
    for nothing at all. *)
Theorem reader_only_downloads_below_size (ops : list op) (st : Reader.state) :
  let N := match Reader._raw_reader (fst st) with
           | Some raw => _RawReader._size raw
           | None => 0
           end in
  contents (snd (perform_all ops st)) = contents (snd st) /\
  exists new,
    calls (snd (perform_all ops st)) = calls (snd st) ++ new /\
    Forall (download_below N) new /\
    (Reader._raw_reader (fst st) = None -> new = []).
Proof.
  intros N.
  assert (Hall : forall N0 blob0 l s,
            quiet N0 blob0 s -> quiet N0 blob0 (perform_all l s)).
  { intros N0 blob0 l. induction l as [| o l IH]; intros s H; [exact H |].
    unfold perform_all. cbn [fold_left]. apply IH.
    apply stays_perform. exact H. }
  assert (Hstart : forall M,
            (forall raw, Reader._raw_reader (fst st) = Some raw ->
                         _RawReader._size raw = M) ->
            quiet M (snd st) st).
  { intros M HM. split; [exact HM |]. repeat (split; [reflexivity |]).
    exists []. split; [symmetry; apply app_nil_r | constructor]. }
  assert (HN : quiet N (snd st) st).
  { apply Hstart. intros raw Hr. subst N. rewrite Hr. reflexivity. }
  destruct (Hall _ _ ops _ HN) as (_ & Hc & _ & _ & new & Hcalls & Hnew).
  split; [exact Hc |]. exists new. split; [exact Hcalls |].
  split; [exact Hnew |].
  intros Hclosed.
  (* a closed reader: take the least size the raw position allows *)
  assert (Hq : forall M, quiet M (snd st) (perform_all ops st)).
  { intros M. apply Hall. apply Hstart. intros raw Hr.
    rewrite Hclosed in Hr. discriminate. }
  destruct new as [| c new']; [reflexivity |]. exfalso.
  inversion Hnew as [| c0 l0 (offset & length & Hcall & _) _]. subst c.
  destruct (Hq offset) as (_ & _ & _ & _ & new2 & Hcalls2 & Hnew2).
  rewrite Hcalls in Hcalls2. apply app_inv_head in Hcalls2. subst new2.
  inversion Hnew2 as [| c1 l1 (o1 & l2 & Hcall1 & Hlt) _].
  injection Hcall1 as <- _. lia.
Qed.

Lemma reader_only_downloads_below_size_witness :
  Reader._raw_reader (fst (snd (Reader.close (fresh (b_ "abcdef") 4)))) = None /\
  calls (snd (perform_all [Read 3; Seek 0 WHENCE_START; Readline 8 (-1)]
                (snd (Reader.close (fresh (b_ "abcdef") 4)))))
  = calls (snd (snd (Reader.close (fresh (b_ "abcdef") 4)))) /\
  exists new,
    calls (snd (perform_all [Read 3; Seek 1 WHENCE_START; Read (-1)]
                  (fresh (b_ "abcdef") 4)))
    = calls (snd (fresh (b_ "abcdef") 4)) ++ new /\
    Forall (download_below (len (b_ "abcdef"))) new.
Proof.
  assert (H : Reader._raw_reader
                (fst (snd (Reader.close (fresh (b_ "abcdef") 4)))) = None)
    by reflexivity.
  split; [exact H |]. split.
  - destruct (reader_only_downloads_below_size
                [Read 3; Seek 0 WHENCE_START; Readline 8 (-1)]
                (snd (Reader.close (fresh (b_ "abcdef") 4))))
      as (_ & new & Hcalls & _ & Hnone).
    rewrite Hcalls, (Hnone H). apply app_nil_r.
  - destruct (reader_only_downloads_below_size
                [Read 3; Seek 1 WHENCE_START; Read (-1)]
                (fresh (b_ "abcdef") 4))
      as (_ & new & Hcalls & Hnew & _).
    exists new. split; [exact Hcalls | exact Hnew].
Defined.

(** ** The raw reader on its own *)

(** X14.  What [_RawReader.read(n)] does, in every state.  At or past the
    recorded size it returns the empty bytes and asks nothing of the blob.
    Below it, it issues exactly one download at its position (to the end for
    [n = -1], of [n] bytes otherwise), returns what the blob gives and moves
    its position forward by that many bytes; the one failure is the blob's
    refusal of a negative offset, which leaves the position where it was.
    The position never moves backwards. *)
Theorem raw_read_contract (n : Z) (raw : _RawReader.t) (blob : BlobClient) :
  let p := _RawReader._position raw in
  let result := _RawReader.read n (raw, blob) in
  let raw' := fst (snd result) in
  let blob' := snd (snd result) in
  _RawReader._size raw' = _RawReader._size raw /\
  p <= _RawReader._position raw' /\
  contents blob' = contents blob /\
  (_RawReader._size raw <= p ->
   result = (Ok [], (raw, blob))) /\
  (p < _RawReader._size raw ->
   calls blob' = calls blob ++ [DownloadBlob p (length_arg n)] /\
   (0 <= p ->
    fst result = Ok (chunk_at p n (contents blob)) /\
    _RawReader._position raw' = p + len (chunk_at p n (contents blob))) /\
   (p < 0 -> fst result = Raise ValueError /\ raw' = raw)).
Proof.
  destruct raw as [rs rp], blob as [ct sp uf log]. cbv zeta.
  unfold length_arg, chunk_at. run.
  destruct (rp >=? rs) eqn:E1.
  - apply Z.geb_le in E1.
    split; [reflexivity |]. split; [lia |]. split; [reflexivity |].
    split; [reflexivity |]. intros H. lia.
  - rewrite Z.geb_leb in E1. apply Z.leb_gt in E1.
    assert (E2 : (rp =? rs) = false) by (apply Z.eqb_neq; lia).
    rewrite E2.
    destruct (n =? -1) eqn:En; destruct (rp <? 0) eqn:E3;
      try apply Z.ltb_lt in E3; try apply Z.ltb_ge in E3;
      try (apply Z.eqb_eq in En; subst n);
      (split; [reflexivity |]);
      (split; [try lia;
               match goal with
               | |- _ <= _ + len ?d => pose proof (len_nonneg d); lia
               end |]);
      (split; [reflexivity |]);
      (split; [intros H; lia |]);
      intros _; (split; [reflexivity |]);
      (split; [intros H; try lia; split; reflexivity
              | intros H; try lia; split; reflexivity]).
Qed.

Lemma raw_read_contract_witness :
  let raw := {| _RawReader._size := 6; _RawReader._position := 4 |} in
  let blob := blob_of (b_ "abcdef") in
  let result := _RawReader.read 10 (raw, blob) in
  4 < 6 /\ 0 <= 4 /\
  calls (snd (snd result)) = [] ++ [DownloadBlob 4 (length_arg 10)] /\
  fst result = Ok (chunk_at 4 10 (b_ "abcdef")) /\
  _RawReader._position (fst (snd result))
  = 4 + len (chunk_at 4 10 (b_ "abcdef")).
Proof.
  cbv zeta.
  assert (H1 : 4 < 6) by lia. assert (H2 : 0 <= 4) by lia.
  split; [exact H1 |]. split; [exact H2 |].
  pose proof (raw_read_contract 10
                {| _RawReader._size := 6; _RawReader._position := 4 |}
                (blob_of (b_ "abcdef"))) as H.
  cbv zeta in H. destruct H as (_ & _ & _ & _ & H).
  destruct (H H1) as (Hcalls & Hok & _). destruct (Hok H2) as (Hd & Hp).
  split; [exact Hcalls |]. split; [exact Hd | exact Hp].
Defined.

(** ** Reading everything, and reading in pieces *)

(** X15.  On a steady reader, a read with [size < 0] returns everything
    that is pending, buffered bytes first, and leaves nothing pending; the
    reader stays steady and in step, so later reads return the empty bytes
    until a seek. *)
Theorem read_all_delivers_the_rest (C : bytes) (size : Z) (st : Reader.state) :
  steady C st -> size < 0 ->
  exists st',
    Reader.read size st = (Ok (pending st), st') /\
    pending st' = [] /\
    steady C st' /\ in_step C st' /\
    (forall k : Z, 0 < k -> fst (Reader.read k st') = Ok []).
Proof.
  intros Hsteady Hs.
  destruct (steady_running C st Hsteady) as (p & Hst & Hp & Heof).
  destruct Hsteady as ((HC & Hsize & _) & Hchunk & _).
  unfold chunk_size_of in Hchunk.
  set (r := fst st) in *. set (blob := snd st) in *.
  rewrite Hst. clear Hst. rewrite pending_running.
  destruct (read_all_spec r (len C) blob size p
              (ByteBuffer._bytes (Reader._current_part r)) (Reader._eof r)
              (Reader._current_pos r) (calls blob))
    as (p' & log' & Heq & HN' & Hp'); [exact Hs | exact Hp | congruence |].
  eexists. split; [exact Heq |].
  assert (Hrest : from p' (contents blob) = [])
    by (apply from_all; rewrite HC; exact HN').
  assert (Hs' : steady C
                  (running r (len C) blob p' [] (Reader._eof r)
                     (Reader._size r
                      + len (ByteBuffer._bytes (Reader._current_part r)))
                     log'))
    by (apply running_steady; try assumption; intros _; exact HN').
  assert (Hempty : pending
                     (running r (len C) blob p' [] (Reader._eof r)
                        (Reader._size r
                         + len (ByteBuffer._bytes (Reader._current_part r)))
                        log') = [])
    by (rewrite pending_running; exact Hrest).
  split; [exact Hempty |]. split; [exact Hs' |].
  pose proof (len_nonneg (ByteBuffer._bytes (Reader._current_part r))) as HB.
  pose proof (len_nonneg C) as HCn.
  split.
  - split; [rewrite cursor_running; lia |].
    rewrite Hempty, cursor_running. symmetry. apply from_all. lia.
  - intros k Hk.
    destruct (read_steady_spec C k _ Hs' Hk) as (st2 & Hrun & _).
    rewrite Hrun, Hempty. cbn [fst]. rewrite upto_all by (change (len []) with 0; lia).
    reflexivity.
Qed.

Lemma read_all_delivers_the_rest_witness :
  steady (b_ "abcdef") (perform (Read 1) (fresh (b_ "abcdef") 4)) /\
  -1 < 0 /\
  exists st',
    Reader.read (-1) (perform (Read 1) (fresh (b_ "abcdef") 4))
    = (Ok (pending (perform (Read 1) (fresh (b_ "abcdef") 4))), st') /\
    pending st' = [] /\
    steady (b_ "abcdef") st' /\ in_step (b_ "abcdef") st' /\
    (forall k : Z, 0 < k -> fst (Reader.read k st') = Ok []).
Proof.
  assert (H1 : steady (b_ "abcdef") (perform (Read 1) (fresh (b_ "abcdef") 4))).
  { split; [| split].
    - split; [reflexivity |]. split; [reflexivity |].
      eexists. split; reflexivity.
    - reflexivity.
    - eexists. split; [reflexivity |]. split; [vm_compute; discriminate |].
      discriminate. }
  assert (H2 : -1 < 0) by lia.
  split; [exact H1 |]. split; [exact H2 |].
  exact (read_all_delivers_the_rest (b_ "abcdef") (-1)
           (perform (Read 1) (fresh (b_ "abcdef") 4)) H1 H2).
Defined.










(** ** Reading line by line *)






(** ** Opening *)

(** X18.  [open] in mode "wb" asks nothing of the blob and gives a writer
    that is not closed and counts from 0.  In mode "rb" it makes exactly one
    call, the property lookup; on a blob that reports the length of its
    contents [C], with a positive buffer size, the reader it gives is steady
    and in step at cursor 0 with all of [C] pending and the newline as line
    terminator, which is what the reading properties above start from.
    Without a blob handle, mode "rb" raises [ResourceNotFoundError] before
    any call. *)
Theorem open_gives_ready_streams (buffer_size : Z) (client : service)
    (h : handle) (remote : BlobClient) :
  (forall blob : option handle,
     exists w,
       open WRITE_BINARY buffer_size client blob remote
       = (Ok (AWriter w), remote) /\
       Writer.tell (w, remote) = (Ok 0, (w, remote)) /\
       Writer.closed (w, remote) = (Ok false, (w, remote))) /\
  open READ_BINARY buffer_size client None remote
  = (Raise ResourceNotFoundError, remote) /\
  (exists r remote',
     open READ_BINARY buffer_size client (Some h) remote
     = (Ok (AReader r), remote') /\
     calls remote' = calls remote ++ [GetBlobProperties] /\
     contents remote' = contents remote /\
     cursor (r, remote') = 0 /\
     Reader._line_terminator r = BINARY_NEWLINE /\
     (size_property remote = Some (len (contents remote)) ->
      0 < buffer_size ->
      steady (contents remote) (r, remote') /\
      in_step (contents remote) (r, remote') /\
      pending (r, remote') = contents remote)).
Proof.
  destruct remote as [ct sp uf log]. split; [| split].
  - intros blob. eexists. repeat split.
  - reflexivity.
  - destruct sp as [n |].
    + eexists _, _. split; [reflexivity |]. repeat (split; [reflexivity |]).
      intros Hn Hb. cbn in Hn. injection Hn as ->.
      split; [| split; [| reflexivity]].
      * split; [| split].
        -- split; [reflexivity |]. split; [reflexivity |].
           eexists. split; reflexivity.
        -- exact Hb.
        -- eexists. split; [reflexivity |]. split; [cbn; lia |]. discriminate.
      * split; [unfold cursor; cbn; lia | reflexivity].
    + eexists _, _. split; [reflexivity |]. repeat (split; [reflexivity |]).
      intros Hn. discriminate.
Qed.

Lemma open_gives_ready_streams_witness :
  size_property (blob_of three_lines) = Some (len (contents (blob_of three_lines))) /\
  0 < DEFAULT_BUFFER_SIZE /\
  exists r remote',
    open READ_BINARY DEFAULT_BUFFER_SIZE BlobServiceClient (Some BlobHandle)
      (blob_of three_lines) = (Ok (AReader r), remote') /\
    steady three_lines (r, remote') /\
    in_step three_lines (r, remote') /\
    pending (r, remote') = three_lines.
Proof.
  assert (H1 : size_property (blob_of three_lines)
               = Some (len (contents (blob_of three_lines)))) by reflexivity.
  assert (H2 : 0 < DEFAULT_BUFFER_SIZE) by reflexivity.
  split; [exact H1 |]. split; [exact H2 |].
  destruct (proj2 (proj2 (open_gives_ready_streams DEFAULT_BUFFER_SIZE
                            BlobServiceClient BlobHandle
                            (blob_of three_lines))))
    as (r & remote' & Hopen & _ & _ & _ & _ & Hready).
  destruct (Hready H1 H2) as (Hs & Hi & Hp).
  exists r, remote'.
  split; [exact Hopen |]. split; [exact Hs |]. split; [exact Hi | exact Hp].
Defined.

(** ** A writer, then a reader *)

(** X19.  What a writer wrote, a reader opened afterwards reads back,
    provided the blob's properties then report the size of what was
    written: after [write(data)] on a healthy blob, [open] in mode "rb" and
    [read(-1)] return [data].  When the property lookup fails instead (the
    blob of the tests never reports a size), the same reader returns the
    empty bytes although the blob holds [data]. *)
Theorem write_then_read_back (data : bytes) (w : Writer.t) (blob : BlobClient)
    (h : handle) (buffer_size : Z) (client : service) :
  Writer._blob w = Some h -> upload_fault blob = None ->
  exists stw r blob2,
    Writer.write (PyBytes data) (w, blob) = (Ok (len data), stw) /\
    contents (snd stw) = data /\
    open READ_BINARY buffer_size client (Some h) (snd stw)
    = (Ok (AReader r), blob2) /\
    (size_property blob = Some (len data) ->
     fst (Reader.read (-1) (r, blob2)) = Ok data) /\
    (size_property blob = None ->
     fst (Reader.read (-1) (r, blob2)) = Ok [] /\ contents blob2 = data).
Proof.
  intros Hh Hf. rewrite (write_binary_ok w blob h data Hh Hf).
  destruct blob as [ct sp uf log]. cbn [size_property calls] in *.
  destruct sp as [n |].
  - eexists _, _, _. split; [reflexivity |]. split; [reflexivity |].
    split; [reflexivity |]. split; [| intros H; discriminate].
    intros Hn. injection Hn as ->.
    match goal with
    | |- fst (Reader.read (-1) (?r0, ?b0)) = _ =>
        change (r0, b0) with (running r0 (len data) b0 0 [] false 0 (calls b0));
        destruct (read_all_spec r0 (len data) b0 (-1) 0 [] false 0 (calls b0))
          as (p' & log' & Heq & _); [lia | lia | reflexivity |]
    end.
    rewrite Heq. reflexivity.
  - eexists _, _, _. split; [reflexivity |]. split; [reflexivity |].
    split; [reflexivity |]. split; [intros H; discriminate |].
    intros _. split; reflexivity.
Qed.

Lemma write_then_read_back_witness :
  Writer._blob (Writer.__init__ BlobServiceClient (Some BlobHandle))
  = Some BlobHandle /\
  upload_fault {| contents := []; size_property := Some 5;
                  upload_fault := None; calls := [] |} = None /\
  size_property {| contents := []; size_property := Some 5;
                   upload_fault := None; calls := [] |}
  = Some (len (b_ "hello")) /\
  exists stw r blob2,
    Writer.write (PyBytes (b_ "hello"))
      (Writer.__init__ BlobServiceClient (Some BlobHandle),
       {| contents := []; size_property := Some 5;
          upload_fault := None; calls := [] |})
    = (Ok (len (b_ "hello")), stw) /\
    open READ_BINARY 4 BlobServiceClient (Some BlobHandle) (snd stw)
    = (Ok (AReader r), blob2) /\
    fst (Reader.read (-1) (r, blob2)) = Ok (b_ "hello").
Proof.
  split; [reflexivity |]. split; [reflexivity |].
  assert (H3 : size_property {| contents := []; size_property := Some 5;
                                upload_fault := None; calls := [] |}
               = Some (len (b_ "hello"))) by reflexivity.
  split; [exact H3 |].
  destruct (write_then_read_back (b_ "hello")
              (Writer.__init__ BlobServiceClient (Some BlobHandle))
              {| contents := []; size_property := Some 5;
                 upload_fault := None; calls := [] |}
              BlobHandle 4 BlobServiceClient eq_refl eq_refl)
    as (stw & r & blob2 & Hw & _ & Ho & Hread & _).
  exists stw, r, blob2. split; [exact Hw |]. split; [exact Ho |].
  exact (Hread H3).
Defined.

(** X20.  A stale size.  The size a reader records is not looked up again:
    when the blob's contents [C] no longer have the recorded length, a
    [read(-1)] from the start returns all of [C] if the recorded size is
    positive, whatever it is, and the empty bytes, with no download, if it
    is not. *)
Theorem stale_size_read_all (C : bytes) (st : Reader.state) (raw : _RawReader.t) :
  contents (snd st) = C ->
  Reader._raw_reader (fst st) = Some raw ->
  _RawReader._position raw = 0 ->
  ByteBuffer._bytes (Reader._current_part (fst st)) = [] ->
  (0 < _RawReader._size raw ->
   fst (Reader.read (-1) st) = Ok C /\
   calls (snd (snd (Reader.read (-1) st)))
   = calls (snd st) ++ [DownloadBlob 0 None]) /\
  (_RawReader._size raw <= 0 ->
   fst (Reader.read (-1) st) = Ok [] /\
   snd (snd (Reader.read (-1) st)) = snd st).
Proof.
  intros HC Hraw Hp HB.
  destruct st as [r blob]. destruct r as [h sz rr pos cps [c B] e lt].
  destruct blob as [ct sp uf log]. destruct raw as [rs rp].
  cbn in HC, Hraw, Hp, HB. subst ct rr rp B.
  cbn [_RawReader._size fst snd].
  set (R := {| Reader._blob := h; Reader._size := sz;
               Reader._raw_reader :=
                 Some {| _RawReader._size := rs; _RawReader._position := 0 |};
               Reader._current_pos := pos; Reader._current_part_size := cps;
               Reader._current_part :=
                 {| ByteBuffer._chunk_size := c; ByteBuffer._bytes := [] |};
               Reader._eof := e; Reader._line_terminator := lt |}).
  set (blob := {| contents := C; size_property := sp;
                  upload_fault := uf; calls := log |}).
  change (R, blob) with (running R rs blob 0 [] e pos log).
  assert (Hread : forall out,
            Reader.with_raw_reader (_RawReader.read (-1))
              (running R rs blob 0 [] e (Reader._size R + len []) log) = out ->
            Reader.read (-1) (running R rs blob 0 [] e pos log)
            = (match fst out with
               | Ok b => Ok ([] ++ b)
               | Raise x => Raise x
               | OutOfFuel => OutOfFuel
               end, snd out)).
  { intros out <-. unfold Reader.read.
    change (-1 =? 0) with false. change (-1 <? 0) with true. cbv iota.
    unfold bind at 1. rewrite self_running. cbv beta iota.
    unfold bind at 1. rewrite set_current_pos_running. cbv beta iota.
    unfold bind at 1. rewrite read_from_buffer_all by lia. cbv beta iota.
    unfold bind at 1.
    destruct (Reader.with_raw_reader (_RawReader.read (-1)) _) as [[b | x |] s'];
      reflexivity. }
  split; intros H.
  - rewrite (Hread _ (raw_read_more R rs blob (-1) 0 [] e _ log
                        ltac:(lia))).
    cbn [fst snd]. unfold chunk_at, length_arg.
    change (-1 <? 0) with true. change (-1 =? -1) with true. cbv iota.
    rewrite from_0. split; reflexivity.
  - rewrite (Hread _ (raw_read_done R rs blob (-1) 0 [] e _ log
                        ltac:(lia))).
    split; reflexivity.
Qed.

Lemma stale_size_read_all_witness :
  let st := (fst (fresh (b_ "ab") 4),
             {| contents := b_ "abcdef"; size_property := Some 2;
                upload_fault := None; calls := [GetBlobProperties] |}) in
  contents (snd st) = b_ "abcdef" /\
  Reader._raw_reader (fst st) = Some (_RawReader.__init__ 2) /\
  _RawReader._position (_RawReader.__init__ 2) = 0 /\
  ByteBuffer._bytes (Reader._current_part (fst st)) = [] /\
  0 < _RawReader._size (_RawReader.__init__ 2) /\
  fst (Reader.read (-1) st) = Ok (b_ "abcdef") /\
  calls (snd (snd (Reader.read (-1) st)))
  = calls (snd st) ++ [DownloadBlob 0 None].
Proof.
  cbv zeta.
  split; [reflexivity |]. split; [reflexivity |]. split; [reflexivity |].
  split; [reflexivity |].
  assert (H5 : 0 < _RawReader._size (_RawReader.__init__ 2)) by reflexivity.
  split; [exact H5 |].
  exact (proj1 (stale_size_read_all (b_ "abcdef")
                  (fst (fresh (b_ "ab") 4),
                   {| contents := b_ "abcdef"; size_property := Some 2;
                      upload_fault := None; calls := [GetBlobProperties] |})
                  (_RawReader.__init__ 2) eq_refl eq_refl eq_refl eq_refl) H5).
Defined.

(** ** A seek before the start of the blob *)

Section Refused.

Variables (r : Reader.t) (N : Z) (blob : BlobClient).

Local Abbreviation St := (running r N blob).
Local Abbreviation chunk := (ByteBuffer._chunk_size (Reader._current_part r)).

(** [self._raw_reader.read(n)] at a negative position below the recorded
    size: the download is asked for and the blob refuses it. *)
Lemma raw_read_refused n p B e pos log :
  p < 0 -> p < N ->
  Reader.with_raw_reader (_RawReader.read n) (St p B e pos log)
  = (Raise ValueError, St p B e pos (log ++ [DownloadBlob p (length_arg n)])).
Proof.
  intros H0 HN. unfold length_arg.
  assert (E1 : (p >=? N) = false) by (rewrite Z.geb_leb; apply Z.leb_gt; lia).
  assert (E2 : (p =? N) = false) by (apply Z.eqb_neq; lia).
  assert (E3 : (p <? 0) = true) by (apply Z.ltb_lt; lia).
  run. rewrite E1, E2.
  destruct (n =? -1) eqn:En; rewrite E3; reflexivity.
Qed.

(** The same through [self._current_part.fill]: the buffer is left alone. *)
Lemma fill_refused p B e pos log :
  p < 0 -> p < N ->
  Reader.fill_current_part (St p B e pos log)
  = (Raise ValueError,
     St p B e pos (log ++ [DownloadBlob p (length_arg chunk)])).
Proof.
  intros H0 HN. unfold length_arg.
  assert (E1 : (p >=? N) = false) by (rewrite Z.geb_leb; apply Z.leb_gt; lia).
  assert (E2 : (p =? N) = false) by (apply Z.eqb_neq; lia).
  assert (E3 : (p <? 0) = true) by (apply Z.ltb_lt; lia).
  run. rewrite E1, E2.
  destruct (_ =? -1) eqn:En; rewrite E3; reflexivity.
Qed.

End Refused.

(** X21.  [Reader.seek] accepts a target before the start of the blob: it
    returns the negative position and asks nothing of the blob.  The next
    read of [k <> 0] bytes then fails with the blob's [ValueError], after
    one download request at the negative offset; the contents are
    untouched.  After the failed [read(k)] with [k > 0] the cursor is still
    the negative target; after the failed read with [k < 0] it is the
    recorded size. *)
Theorem negative_seek_fails_at_read (C : bytes) (st : Reader.state)
    (offset whence k : Z) :
  opened_on C st ->
  In whence WHENCE_CHOICES ->
  seek_target offset whence st < 0 ->
  k <> 0 ->
  let t := seek_target offset whence st in
  let st1 := snd (Reader.seek offset whence st) in
  Reader.seek offset whence st = (Ok t, st1) /\
  snd st1 = snd st /\
  fst (Reader.read k st1) = Raise ValueError /\
  contents (snd (snd (Reader.read k st1))) = C /\
  calls (snd (snd (Reader.read k st1)))
  = calls (snd st)
    ++ [DownloadBlob t (length_arg (if k <? 0 then -1 else chunk_size_of st))] /\
  cursor (snd (Reader.read k st1)) = (if k <? 0 then len C else t).
Proof.
  intros Hopen Hin Ht Hk. cbv zeta.
  destruct (opened_on_running C st Hopen) as (raw & _ & Hst).
  destruct Hopen as (HC & Hsize & _). unfold chunk_size_of.
  assert (Hw : existsb (Z.eqb whence) WHENCE_CHOICES = true).
  { apply existsb_exists. exists whence.
    split; [exact Hin | apply Z.eqb_refl]. }
  set (t := seek_target offset whence st) in *.
  set (r := fst st) in *. set (blob := snd st) in *.
  assert (Heq : Reader.seek offset whence st
                = (Ok t, running r (len C) blob t []
                           (t =? Reader._size r) t (calls blob))).
  { transitivity
      (Reader.seek offset whence
         (running r (len C) blob (_RawReader._position raw)
            (ByteBuffer._bytes (Reader._current_part r)) (Reader._eof r)
            (Reader._current_pos r) (calls blob))).
    - f_equal. exact Hst.
    - rewrite seek_spec by exact Hw. reflexivity. }
  rewrite Heq. cbn [snd].
  pose proof (len_nonneg C) as HlenC.
  assert (Ee : (t =? Reader._size r) = false) by (apply Z.eqb_neq; lia).
  rewrite Ee.
  split; [reflexivity |].
  split; [destruct blob; reflexivity |].
  assert (E1 : (k =? 0) = false) by (apply Z.eqb_neq; exact Hk).
  assert (Hread : Reader.read k
                    (running r (len C) blob t [] false t (calls blob))
                  = (Raise ValueError,
                     running r (len C) blob t [] false
                       (if k <? 0 then Reader._size r + len [] else t)
                       (calls blob
                        ++ [DownloadBlob t
                              (length_arg
                                 (if k <? 0 then -1
                                  else ByteBuffer._chunk_size
                                         (Reader._current_part r)))]))).
  { unfold Reader.read. rewrite E1.
    destruct (k <? 0) eqn:E2.
    - unfold bind at 1. rewrite self_running. cbv beta iota.
      unfold bind at 1. rewrite set_current_pos_running. cbv beta iota.
      unfold bind at 1. rewrite read_from_buffer_all by lia. cbv beta iota.
      unfold bind at 1. rewrite raw_read_refused by lia. reflexivity.
    - apply Z.ltb_ge in E2.
      unfold bind at 1. rewrite self_running. cbv beta iota.
      change (ByteBuffer.__len__
                (Reader._current_part
                   (fst (running r (len C) blob t [] false t (calls blob)))))
        with (len []).
      change (Reader._eof
                (fst (running r (len C) blob t [] false t (calls blob))))
        with false.
      change (len []) with 0.
      assert (E3 : (0 >=? k) = false)
        by (rewrite Z.geb_leb; apply Z.leb_gt; lia).
      rewrite E3. cbv iota.
      unfold bind at 1. rewrite fill_buffer_unfold.
      assert (E4 : (k >=? 0) = true) by (apply Z.geb_le; lia).
      rewrite E4. change (len []) with 0.
      destruct (Z.to_nat (k - 0)) as [| fuel] eqn:Hfuel; [lia |].
      rewrite fill_loop_next
        by (change (len []) with 0;
            apply andb_true_iff; split; [apply Z.ltb_lt; lia | reflexivity]).
      unfold bind at 1. rewrite fill_refused by lia. reflexivity. }
  rewrite Hread. cbn [fst snd].
  split; [reflexivity |]. split; [exact HC |]. split; [reflexivity |].
  rewrite cursor_running. destruct (k <? 0); [| reflexivity].
  change (len []) with 0. lia.
Qed.

Lemma negative_seek_fails_at_read_witness :
  opened_on (b_ "abcdef") (fresh (b_ "abcdef") 4) /\
  In WHENCE_START WHENCE_CHOICES /\
  seek_target (-1) WHENCE_START (fresh (b_ "abcdef") 4) < 0 /\
  3 <> 0 /\
  Reader.seek (-1) WHENCE_START (fresh (b_ "abcdef") 4)
  = (Ok (-1), snd (Reader.seek (-1) WHENCE_START (fresh (b_ "abcdef") 4))) /\
  fst (Reader.read 3
         (snd (Reader.seek (-1) WHENCE_START (fresh (b_ "abcdef") 4))))
  = Raise ValueError.
Proof.
  assert (H1 : opened_on (b_ "abcdef") (fresh (b_ "abcdef") 4)).
  { split; [reflexivity |]. split; [reflexivity |].
    eexists. split; reflexivity. }
  assert (H2 : In WHENCE_START WHENCE_CHOICES) by (left; reflexivity).
  assert (H3 : seek_target (-1) WHENCE_START (fresh (b_ "abcdef") 4) < 0)
    by (vm_compute; reflexivity).
  assert (H4 : 3 <> 0) by lia.
  split; [exact H1 |]. split; [exact H2 |]. split; [exact H3 |].
  split; [exact H4 |].
  destruct (negative_seek_fails_at_read (b_ "abcdef") (fresh (b_ "abcdef") 4)
              (-1) WHENCE_START 3 H1 H2 H3 H4) as (Hs & _ & Hr & _).
  split; [exact Hs | exact Hr].
Defined.
